(** * Access-tuple reconciliation and client identity resolution

    A shallow embedding of the JAAS access resources of the Terraform
    provider for Juju (package [provider]) and of the shared controller
    client (package [juju]), with the properties of their reconciliation
    logic.

    Layout:
    - [tf]           the slice of the Terraform plugin framework the code uses;
    - [params]       the relationship tuple exchanged with the controller;
    - [go]           Go's error and result conventions;
    - [modelcache]   the model identity cache;
    - [juju]         the controller as a reply oracle over the history of
                     requests, the state monad of the client code,
                     [sharedClient] and [jaasClient];
    - [provider]     [genericJAASAccessResource];
    - [accessModel]  [genericJAASAccessModelResource];
    - [once]         goroutines interleaving in [sharedClient.IsJAAS];
    - [samples]      test doubles and the scenarios' data;
    then the properties, in the same order.  *)

From Stdlib Require Import Ascii.
From stdpp Require Import base option list strings gmap sets.

Open Scope string_scope.
Open Scope list_scope.

(* ================================================================== *)
(** ** Terraform plugin framework values and diagnostics *)
(* ================================================================== *)

Module tf.

(** [types.String]: null, unknown, or a known Go string. *)
Inductive StringValue :=
| StringNull
| StringUnknown
| StringKnown (s : string).

(** [types.Set] of strings, as the code reads it: the list returned by
    [Elements()] (empty for a null set).  The framework keeps the elements
    in the order they were supplied. *)
Abbreviation SetValue := (list string) (only parsing).

Inductive Severity := SeverityError | SeverityWarning.

Record Diagnostic := mkDiagnostic {
  severity : Severity;
  summary : string;
  detail : string
}.

Definition Diagnostics := list Diagnostic.

#[global] Instance Severity_eq_dec : EqDecision Severity.
Proof. solve_decision. Defined.

#[global] Instance Diagnostic_eq_dec : EqDecision Diagnostic.
Proof. solve_decision. Defined.

Definition isError (d : Diagnostic) : bool :=
  match severity d with SeverityError => true | SeverityWarning => false end.

(** [Diagnostics.HasError]. *)
Definition HasError (ds : Diagnostics) : bool := existsb isError ds.

(** [Diagnostics.Append]: a diagnostic already present is not added again. *)
Definition Append (ds : Diagnostics) (new : Diagnostics) : Diagnostics :=
  foldl (fun acc d => if bool_decide (d ∈ acc) then acc else acc ++ [d]) ds new.

(** [Diagnostics.AddError]. *)
Definition AddError (ds : Diagnostics) (s d : string) : Diagnostics :=
  Append ds [mkDiagnostic SeverityError s d].

(** [SetValue.ElementsAs(ctx, &[]string, false)]: on a set of known strings
    the conversion yields the elements and no diagnostic. *)
Definition ElementsAs (s : SetValue) : list string * Diagnostics := (s, []).

(** [basetypes.NewSetValue] / [NewSetValueFrom] at element type string. *)
Definition NewSetValue (elems : list string) : SetValue * Diagnostics := (elems, []).

(** [SetValue.Equal]: same size and every element of the receiver is
    contained in the other set. *)
Definition SetValue_Equal (s o : SetValue) : bool :=
  Nat.eqb (length s) (length o)
  && forallb (fun e => existsb (String.eqb e) o) s.

(** [Diagnostics.AddWarning]. *)
Definition AddWarning (ds : Diagnostics) (s d : string) : Diagnostics :=
  Append ds [mkDiagnostic SeverityWarning s d].

End tf.

(* ================================================================== *)
(** ** Relationship tuples *)
(* ================================================================== *)

Module params.

(** [params.RelationshipTuple]; a field left out of a composite literal is
    the empty string. *)
Record RelationshipTuple := mkTuple {
  Object : string;
  Relation : string;
  TargetObject : string
}.

#[global] Instance RelationshipTuple_eq_dec : EqDecision RelationshipTuple.
Proof. solve_decision. Defined.

Record ListRelationshipTuplesRequest := mkListRequest {
  Tuple : RelationshipTuple;
  ContinuationToken : string
}.

Record ListRelationshipTuplesResponse := mkListResponse {
  Tuples : list RelationshipTuple;
  Errors : list string;
  RespContinuationToken : string
}.

End params.

(* ================================================================== *)
(** ** Go results *)
(* ================================================================== *)

Module go.

(** A Go [error] value, identified with its message. *)
Definition error := string.

(** The [(value, error)] return convention: exactly one side is meaningful. *)
Inductive result (A : Type) :=
| Ok (a : A)
| Err (e : error).

Arguments Ok {A} a.
Arguments Err {A} e.

Definition isOk {A} (r : result A) : bool :=
  match r with Ok _ => true | Err _ => false end.

(** [strings.Split(s, sep)] for a separator of one byte: the pieces of [s]
    between the occurrences of [sep], one more than there are occurrences. *)
Fixpoint Split (s : string) (sep : Ascii.ascii) : list string :=
  match s with
  | EmptyString => [EmptyString]
  | String c s' =>
      if Ascii.eqb c sep then EmptyString :: Split s' sep
      else match Split s' sep with
           | piece :: pieces => String c piece :: pieces
           | [] => [String c EmptyString]
           end
  end.

(** The number of bytes of [s] equal to [c]. *)
Fixpoint countByte (c : Ascii.ascii) (s : string) : nat :=
  match s with
  | EmptyString => 0
  | String c' s' => (if Ascii.eqb c' c then 1 else 0) + countByte c s'
  end.

(** [strings.Join(pieces, sep)] for a separator of one byte. *)
Fixpoint Join (pieces : list string) (sep : Ascii.ascii) : string :=
  match pieces with
  | [] => EmptyString
  | [piece] => piece
  | piece :: pieces => piece +:+ String sep (Join pieces sep)
  end.

End go.

(* ================================================================== *)
(** ** The model identity cache *)
(* ================================================================== *)

Module modelcache.
Import go.

(** [base.UserModelSummary], reduced to the fields the cache keeps. *)
Record ModelSummary := mkSummary {
  SummaryName : string;
  SummaryOwner : string;
  SummaryUUID : string;
  SummaryType : string
}.

(** Modelled from the spec: the record the cache of package [modelcache]
    keeps per model, [(name, owner, UUID, modelType)]. *)
Record Model := mkModel {
  Name : string;
  Owner : string;
  UUID : string;
  ModelType : string
}.

(** Modelled from the spec: the cache type of package [modelcache], a
    table from model names to their records. *)
Definition Cache := gmap string Model.

(** Modelled from the spec: [NewModelCache] starts empty (records are
    absent until the first refill). *)
Definition NewModelCache : gmap string Model := ∅.

(** Modelled from the spec: [lookup(name) -> ModelIdentityRecord | NotFound];
    a miss is reported as an error value and never refills. *)
Definition Lookup (name : string) (c : gmap string Model) : result Model :=
  match c !! name with
  | Some m => Ok m
  | None => Err ("model not found: " +:+ name)
  end.

Definition ofSummary (s : ModelSummary) : Model :=
  mkModel (SummaryName s) (SummaryOwner s) (SummaryUUID s) (SummaryType s).

(** Modelled from the spec: [fillCache] is a total replace, it clears the
    prior contents and inserts one record per summary. *)
Definition FillCache (summaries : list ModelSummary) (c : gmap string Model)
  : gmap string Model :=
  foldl (fun acc s => <[SummaryName s := ofSummary s]> acc) ∅ summaries.

(** Modelled from the spec: [addModel] is an idempotent upsert. *)
Definition AddModel (name owner uuid type : string) (c : gmap string Model)
  : gmap string Model :=
  <[name := mkModel name owner uuid type]> c.

(** Modelled from the spec: [removeModel] removes by identifier, not name. *)
Definition RemoveModel (uuid : string) (c : gmap string Model)
  : gmap string Model :=
  filter (fun kv => UUID kv.2 ≠ uuid) c.

End modelcache.

(* ================================================================== *)
(** ** Package juju: the shared client and the JAAS client *)
(* ================================================================== *)

Module juju.
Import go params.

(** Everything the client does that can be observed from outside: requests
    to the controller, in the order they are issued, and accesses to the
    model cache. *)
Inductive Event :=
| CConnect (modelUUID : string)
| CClose
| CAddRelation (tuples : list RelationshipTuple)
| CRemoveRelation (tuples : list RelationshipTuple)
| CListRelationshipTuples (req : ListRelationshipTuplesRequest)
| CListControllers
| CListModelSummaries
| CacheLookup (name : string)
| CacheFill.

#[global] Instance ListRequest_eq_dec : EqDecision ListRelationshipTuplesRequest.
Proof. solve_decision. Defined.

#[global] Instance Event_eq_dec : EqDecision Event.
Proof. solve_decision. Defined.

(** The controller and the transport are external collaborators.  A
    controller is any function from the history of events so far to the
    reply of the next request; [None] is a nil error. *)
Class Controller := {
  connect : list Event -> string -> option error;
  addRelation : list Event -> list RelationshipTuple -> option error;
  removeRelation : list Event -> list RelationshipTuple -> option error;
  listRelationshipTuples :
    list Event -> ListRelationshipTuplesRequest ->
    result ListRelationshipTuplesResponse;
  listControllers : list Event -> option error;
  listModelSummaries : list Event -> result (list modelcache.ModelSummary)
}.

Record ControllerConfiguration := mkConfig {
  ControllerAddresses : list string;
  Username : string;
  Password : string;
  CACert : string;
  ClientID : string;
  ClientSecret : string
}.

(** [sharedClient].  [checkJAASOnce] is the done flag of the [sync.Once];
    the logging context is left out. *)
Record sharedClient := mkShared {
  controllerConfig : ControllerConfiguration;
  modelCache : gmap string modelcache.Model;
  checkJAASOnce : bool;
  isJAAS : bool
}.

Record World := mkWorld {
  sc : sharedClient;
  trace : list Event
}.

(** The client code threads the shared client and the event history. *)
Definition M (A : Type) : Type := World -> A * World.

#[global] Instance M_ret : MRet M := fun A a w => (a, w).
#[global] Instance M_bind : MBind M :=
  fun A B f m w => let '(a, w') := m w in f a w'.

Definition emit (e : Event) : M unit :=
  fun w => (tt, mkWorld (sc w) (trace w ++ [e])).

(** Issue request [e]; the controller answers from the history before it. *)
Definition call {A} (e : Event) (reply : list Event -> A) : M A :=
  fun w => (reply (trace w), mkWorld (sc w) (trace w ++ [e])).

Definition getCache : M (gmap string modelcache.Model) :=
  fun w => (modelCache (sc w), w).

Definition setCache (c : gmap string modelcache.Model) : M unit :=
  fun w => (tt, mkWorld (mkShared (controllerConfig (sc w)) c
                           (checkJAASOnce (sc w)) (isJAAS (sc w))) (trace w)).

Definition getIsJAAS : M bool := fun w => (isJAAS (sc w), w).

Definition setIsJAAS (b : bool) : M unit :=
  fun w => (tt, mkWorld (mkShared (controllerConfig (sc w)) (modelCache (sc w))
                           (checkJAASOnce (sc w)) b) (trace w)).

(** [sync.Once.Do]: run [f] unless the flag is set, then set it. *)
Definition Once_Do (f : M unit) : M unit :=
  fun w =>
    if checkJAASOnce (sc w) then (tt, w)
    else let '(_, w') := f w in
         (tt, mkWorld (mkShared (controllerConfig (sc w')) (modelCache (sc w'))
                         true (isJAAS (sc w'))) (trace w')).

(** The add-tuples and remove-tuples requests of a history. *)
Definition isAddCall (e : Event) : bool :=
  match e with CAddRelation _ => true | _ => false end.

Definition isRemoveCall (e : Event) : bool :=
  match e with CRemoveRelation _ => true | _ => false end.

Definition addCalls (h : list Event) : nat := length (List.filter isAddCall h).
Definition removeCalls (h : list Event) : nat := length (List.filter isRemoveCall h).

Section client.
Context `{ctl : Controller}.

(** The tail of [GetConnection], after the model UUID is known: build the
    connector with the fixed dial options and connect.  A failure of either
    step is one failed connection attempt. *)
Definition dial (modelUUID : string) : M (option error) :=
  call (CConnect modelUUID) (fun h => connect h modelUUID).

(** [conn.Close()], whose error is dropped at every call site. *)
Definition Close : M unit := emit CClose.

(** [sharedClient.fillModelCache].  Its [GetConnection(nil)] is the nil
    branch of [GetConnection], that is [dial] with an empty model UUID. *)
Definition fillModelCache : M (option error) :=
  err ← dial "";
  match err with
  | Some e => mret (Some e)
  | None =>
      r ← call CListModelSummaries listModelSummaries;
      match r with
      | Err e => Close;; mret (Some e)
      | Ok modelSummaries =>
          c ← getCache;
          emit CacheFill;;
          setCache (modelcache.FillCache modelSummaries c);;
          Close;;
          mret None
      end
  end.

Definition cacheLookup (name : string) : M (result modelcache.Model) :=
  c ← getCache;
  emit (CacheLookup name);;
  mret (modelcache.Lookup name c).

(** [sharedClient.ModelUUID]. *)
Definition ModelUUID (modelName : string) : M (result string) :=
  r ← cacheLookup modelName;
  match r with
  | Ok model => mret (Ok (modelcache.UUID model))
  | Err _ =>
      err ← fillModelCache;
      match err with
      | Some e => mret (Err e)
      | None =>
          r' ← cacheLookup modelName;
          match r' with
          | Err e => mret (Err e)
          | Ok model => mret (Ok (modelcache.UUID model))
          end
      end
  end.

(** [sharedClient.GetConnection]. *)
Definition GetConnection (modelName : option string) : M (option error) :=
  match modelName with
  | None => dial ""
  | Some name =>
      r ← ModelUUID name;
      match r with
      | Err e => mret (Some e)
      | Ok modelUUID => dial modelUUID
      end
  end.

(** [sharedClient.IsJAAS]. *)
Definition IsJAAS (defaultVal : bool) : M bool :=
  Once_Do (
    setIsJAAS defaultVal;;
    err ← GetConnection None;
    match err with
    | Some _ => mret tt
    | None =>
        err' ← call CListControllers listControllers;
        match err' with
        | None => setIsJAAS true;; Close
        | Some _ => Close
        end
    end);;
  getIsJAAS.

(** [NewClient], reduced to what decides the capability check: the fresh
    shared client and the default handed to [IsJAAS]. *)
Definition defaultJAASCheck (config : ControllerConfiguration) : bool :=
  negb (String.eqb (ClientID config) "") && negb (String.eqb (ClientSecret config) "").

Definition NewClient (config : ControllerConfiguration) : sharedClient :=
  mkShared config modelcache.NewModelCache false false.

(** [Client.IsJAAS]: the closure built by [NewClient]. *)
Definition Client_IsJAAS (config : ControllerConfiguration) : M bool :=
  IsJAAS (defaultJAASCheck config).

(** [jaasClient.AddTuples]. *)
Definition AddTuples (tuples : list RelationshipTuple) : M (option error) :=
  err ← GetConnection None;
  match err with
  | Some e => mret (Some e)
  | None =>
      r ← call (CAddRelation tuples) (fun h => addRelation h tuples);
      Close;;
      mret r
  end.

(** [jaasClient.DeleteTuples]. *)
Definition DeleteTuples (tuples : list RelationshipTuple) : M (option error) :=
  err ← GetConnection None;
  match err with
  | Some e => mret (Some e)
  | None =>
      r ← call (CRemoveRelation tuples) (fun h => removeRelation h tuples);
      Close;;
      mret r
  end.

(** [errors.Trace] annotates the error with a location and keeps its message. *)
Definition errors_Trace (e : error) : error := e.

(** The [for] loop of [ReadTuples].  Go's loop has no bound; [fuel] counts
    the remaining iterations and [None] means the bound was hit. *)
Fixpoint ReadTuples_loop (fuel : nat) (req : ListRelationshipTuplesRequest)
    (tuples : list RelationshipTuple) : M (option (result (list RelationshipTuple))) :=
  match fuel with
  | O => mret None
  | S fuel' =>
      response ← call (CListRelationshipTuples req)
                      (fun h => listRelationshipTuples h req);
      match response with
      | Err e => mret (Some (Err (errors_Trace e)))
      | Ok response =>
          match Errors response with
          | e0 :: _ => mret (Some (Err e0))
          | [] =>
              let tuples := tuples ++ Tuples response in
              if String.eqb (RespContinuationToken response) ""
              then mret (Some (Ok tuples))
              else ReadTuples_loop fuel'
                     (mkListRequest (Tuple req) (RespContinuationToken response))
                     tuples
          end
      end
  end.

(** [jaasClient.ReadTuples]. *)
Definition ReadTuples (fuel : nat) (tuple : RelationshipTuple)
  : M (option (result (list RelationshipTuple))) :=
  err ← GetConnection None;
  match err with
  | Some e => mret (Some (Err e))
  | None =>
      r ← ReadTuples_loop fuel (mkListRequest tuple "") [];
      Close;;
      mret r
  end.

(** The requests that open and close a session. *)
Definition isSessionEvent (e : Event) : bool :=
  match e with CConnect _ | CClose => true | _ => false end.

(** [ext] is one scoped session opened at history [h]: the connection
    attempt alone when it fails; otherwise the connection, requests that
    neither connect nor close, and the close as the last event. *)
Definition oneSession (h ext : list Event) : Prop :=
  match connect h "" with
  | Some _ => ext = [CConnect ""]
  | None =>
      exists requests,
        ext = CConnect "" :: requests ++ [CClose]
        /\ Forall (fun e => isSessionEvent e = false) requests
  end.

(** [sharedClient.ModelType]. *)
Definition ModelType (modelName : string) : M (result string) :=
  r ← cacheLookup modelName;
  match r with
  | Err e => mret (Err e)
  | Ok model => mret (Ok (modelcache.ModelType model))
  end.

(** What the controller's listing for [tuple] consists of when it is asked
    at history [h] with continuation token [tok]: the pages it serves, each
    request carrying the token of the previous response, up to the response
    with the empty token; [h'] is the history after the last request. *)
Inductive listing (tuple : RelationshipTuple)
  : list Event -> string -> list (list RelationshipTuple) -> list Event -> Prop :=
| listing_last h tok response :
    listRelationshipTuples h (mkListRequest tuple tok) = Ok response ->
    Errors response = [] ->
    RespContinuationToken response = "" ->
    listing tuple h tok [Tuples response]
      (h ++ [CListRelationshipTuples (mkListRequest tuple tok)])
| listing_more h tok response pages h' :
    listRelationshipTuples h (mkListRequest tuple tok) = Ok response ->
    Errors response = [] ->
    RespContinuationToken response <> "" ->
    listing tuple (h ++ [CListRelationshipTuples (mkListRequest tuple tok)])
      (RespContinuationToken response) pages h' ->
    listing tuple h tok (Tuples response :: pages) h'.

End client.

End juju.

(* ================================================================== *)
(** ** Package provider: the generic JAAS access resources *)
(* ================================================================== *)

Module provider.
Import go params tf juju.

(** A parsed tag, as [jimmNames.ParseTag] returns it: [Kind()] and [Id()]. *)
Record Tag := mkTag {
  Kind : string;
  Id : string
}.

(** Functions of the libraries the resources call ([terraform-plugin-framework],
    [juju/names], [jimm/pkg/names]).  They are not part of the provider and
    are kept abstract. *)
Class Libraries := {
  (** [types.String.String()], the framework's rendering of a value *)
  StringValue_String : StringValue -> string;
  (** [names.NewUserTag(s).String()] *)
  NewUserTag_String : string -> string;
  (** [names.NewModelTag(s).String()] *)
  NewModelTag_String : string -> string;
  (** [jimmNames.ParseTag] *)
  ParseTag : string -> result Tag;
  (** [jimmNames.IsValidServiceAccountId] *)
  IsValidServiceAccountId : string -> bool
}.

(** [names.UserTagKind] and [jimmNames.GroupTagKind]. *)
Definition UserTagKind : string := "user".
Definition GroupTagKind : string := "group".

(** [types.String.ValueString()]. *)
Definition ValueString (v : StringValue) : string :=
  match v with
  | StringKnown s => s
  | _ => ""
  end.

#[global] Instance StringValue_eq_dec : EqDecision StringValue.
Proof. solve_decision. Defined.

(** [genericJAASAccessModel]; the zero value has empty sets and null strings. *)
Record genericJAASAccessModel := mkModel {
  Users : SetValue;
  ServiceAccounts : SetValue;
  Groups : SetValue;
  Access : StringValue;
  ID : StringValue
}.

Definition zeroModel : genericJAASAccessModel :=
  mkModel [] [] [] StringNull StringNull.

(** A plan or state object behind the [Getter] interface: the attribute that
    names the target ([model_uuid], [uuid] or [name]), the attributes of the
    embedded [genericJAASAccessModel], and the diagnostics [Get] reports. *)
Record Getter := mkGetter {
  getTarget : StringValue;
  getModel : genericJAASAccessModel;
  getDiags : Diagnostics
}.

(** The [resourceInfo] interface. *)
Record resourceInfo := mkResourceInfo {
  Identity : Getter -> Diagnostics -> string * Diagnostics
}.

(** [genericJAASAccessResource]: [client] tells whether the pointer is set;
    the client's state lives in the [World]. *)
Record genericJAASAccessResource := mkResource {
  client : bool;
  targetInfo : resourceInfo
}.

(** The [Diagnostics] and [State] of a create, read, update or delete response. *)
Record Response := mkResponse {
  RespDiagnostics : Diagnostics;
  RespState : option genericJAASAccessModel
}.

(** [addClientNotConfiguredError] is declared elsewhere in the package; it
    records one error diagnostic naming the resource and the method. *)
Definition addClientNotConfiguredError (d : Diagnostics) (resource method : string)
  : Diagnostics :=
  AddError d "Provider Error, Client Not Configured"
    ("Unable to " +:+ method +:+ " " +:+ resource +:+ " resource.").

(** Two lists hold the same elements, in any order. *)
Definition sameSet (a b : list string) : bool :=
  forallb (fun x => bool_decide (x ∈ b)) a
  && forallb (fun x => bool_decide (x ∈ a)) b.

(** Plan and state hold the same subjects, set by set, in any order. *)
Definition sameSubjects (plan state : genericJAASAccessModel) : bool :=
  sameSet (Users plan) (Users state)
  && sameSet (Groups plan) (Groups state)
  && sameSet (ServiceAccounts plan) (ServiceAccounts state).

(** [diffSet]: the elements of [current] that no element of [desired] equals. *)
Definition diffSet (current desired : SetValue) (diag : Diagnostics)
  : SetValue * Diagnostics :=
  let diff :=
    foldl (fun diff source =>
             let found :=
               foldl (fun found target =>
                        if String.eqb source target then true else found)
                     false desired in
             if negb found then diff ++ [source] else diff)
          [] current in
  let '(newSet, diags) := NewSetValue diff in
  (newSet, Append diag diags).

(** [diffPlans]. *)
Definition diffPlans (plan state : genericJAASAccessModel) (diag : Diagnostics)
  : genericJAASAccessModel * genericJAASAccessModel * Diagnostics :=
  let '(newUsers, diag) := diffSet (Users plan) (Users state) diag in
  let '(newGroups, diag) := diffSet (Groups plan) (Groups state) diag in
  let '(newServiceAccounts, diag) :=
    diffSet (ServiceAccounts plan) (ServiceAccounts state) diag in
  let toAdd := mkModel newUsers newServiceAccounts newGroups StringNull StringNull in
  let '(removedUsers, diag) := diffSet (Users state) (Users plan) diag in
  let '(removedGroups, diag) := diffSet (Groups state) (Groups plan) diag in
  let '(removedServiceAccounts, diag) :=
    diffSet (ServiceAccounts state) (ServiceAccounts plan) diag in
  let toRemove :=
    mkModel removedUsers removedServiceAccounts removedGroups StringNull StringNull in
  (toAdd, toRemove, diag).

(** [makeTuples]. *)
Definition makeTuples (baseTuple : RelationshipTuple) (items : list string)
    (idToTag : string -> string) : list RelationshipTuple :=
  foldl (fun tuples item =>
           let t := baseTuple in
           let t := mkTuple (idToTag item) (Relation t) (TargetObject t) in
           tuples ++ [t])
        [] items.

Section resources.
Context `{libs : Libraries} `{ctl : Controller}.

(** [modelInfo.Identity]. *)
Definition modelInfo : resourceInfo :=
  mkResourceInfo (fun plan diag =>
    (NewModelTag_String (StringValue_String (getTarget plan)),
     Append diag (getDiags plan))).

(** [jaasAccessResourceByName.Identity]. *)
Definition jaasAccessResourceByName (tag : string) : resourceInfo :=
  mkResourceInfo (fun plan diag =>
    (tag +:+ "-" +:+ StringValue_String (getTarget plan),
     Append diag (getDiags plan))).

(** [jaasAccessResourceByUUID.Identity];
    [NewJAASAccessResourceByUUID] leaves [tag] empty. *)
Definition jaasAccessResourceByUUID (tag : string) : resourceInfo :=
  mkResourceInfo (fun plan diag =>
    (tag +:+ "-" +:+ StringValue_String (getTarget plan),
     Append diag (getDiags plan))).

(** [planToTuples]. *)
Definition planToTuples (targetTag : string) (plan : genericJAASAccessModel)
    (diag : Diagnostics) : list RelationshipTuple * Diagnostics :=
  let '(users, d1) := ElementsAs (Users plan) in
  let diag := Append diag d1 in
  let '(groups, d2) := ElementsAs (Groups plan) in
  let diag := Append diag d2 in
  let '(serviceAccounts, d3) := ElementsAs (ServiceAccounts plan) in
  let diag := Append diag d3 in
  if HasError diag then ([], diag)
  else
    let baseTuple := mkTuple targetTag (StringValue_String (Access plan)) "" in
    let userNameToTagf := fun s => NewUserTag_String s in
    let groupNameToTagf := fun s => "group-" +:+ s in
    let tuples := [] in
    let tuples := tuples ++ makeTuples baseTuple users userNameToTagf in
    let tuples := tuples ++ makeTuples baseTuple groups groupNameToTagf in
    let tuples := tuples ++ makeTuples baseTuple serviceAccounts userNameToTagf in
    (tuples, diag).

(** The state of the loop of [tuplesToPlan]. *)
Record acc := mkAcc {
  accUsers : list string;
  accGroups : list string;
  accServiceAccounts : list string;
  accDiag : Diagnostics
}.

(** One iteration of the loop of [tuplesToPlan]. *)
Definition tuplesToPlan_step (a : acc) (tuple : RelationshipTuple) : acc :=
  match ParseTag (Object tuple) with
  | Err e =>
      mkAcc (accUsers a) (accGroups a) (accServiceAccounts a)
        (AddError (accDiag a) "failed to parse relation tag"
           ("error parsing " +:+ Object tuple +:+ ":" +:+ e))
  | Ok tag =>
      if String.eqb (Kind tag) UserTagKind then
        if IsValidServiceAccountId (Id tag)
        then mkAcc (accUsers a) (accGroups a) (accServiceAccounts a ++ [Id tag]) (accDiag a)
        else mkAcc (accUsers a ++ [Id tag]) (accGroups a) (accServiceAccounts a) (accDiag a)
      else if String.eqb (Kind tag) GroupTagKind then
        mkAcc (accUsers a) (accGroups a ++ [Id tag]) (accServiceAccounts a) (accDiag a)
      else a
  end.

(** [tuplesToPlan]. *)
Definition tuplesToPlan (tuples : list RelationshipTuple) (diag : Diagnostics)
  : genericJAASAccessModel * Diagnostics :=
  let a := foldl tuplesToPlan_step (mkAcc [] [] [] diag) tuples in
  let diag := accDiag a in
  let '(userSet, errDiag) := NewSetValue (accUsers a) in
  let diag := Append diag errDiag in
  let '(groupSet, errDiag) := NewSetValue (accGroups a) in
  let diag := Append diag errDiag in
  let '(serviceAccountSet, errDiag) := NewSetValue (accServiceAccounts a) in
  let diag := Append diag errDiag in
  (mkModel userSet serviceAccountSet groupSet StringNull StringNull, diag).

(** The tags of the tuples whose object [ParseTag] accepts, in order. *)
Definition parsedTags (tuples : list RelationshipTuple) : list Tag :=
  omap (fun tuple =>
          match ParseTag (Object tuple) with
          | Ok tag => Some tag
          | Err _ => None
          end) tuples.

(** Whether [ParseTag] rejects the object of a tuple. *)
Definition malformed (tuple : RelationshipTuple) : bool :=
  negb (isOk (ParseTag (Object tuple))).

(** [Getter.Get] into a [genericJAASAccessModel]. *)
Definition Get (g : Getter) : genericJAASAccessModel * Diagnostics :=
  (getModel g, getDiags g).

(** [State.Set(ctx, &plan)]. *)
Definition State_Set (resp : Response) (plan : genericJAASAccessModel) : Response :=
  mkResponse (Append (RespDiagnostics resp) []) (Some plan).

Definition withDiag (resp : Response) (d : Diagnostics) : Response :=
  mkResponse d (RespState resp).

(** [genericJAASAccessResource.Create]. *)
Definition Create (a : genericJAASAccessResource) (reqPlan : Getter)
    (resp : Response) : M Response :=
  if negb (client a) then
    mret (withDiag resp
            (addClientNotConfiguredError (RespDiagnostics resp) "access model" "create"))
  else
    let '(plan, ds) := Get reqPlan in
    let resp := withDiag resp (Append (RespDiagnostics resp) ds) in
    if HasError (RespDiagnostics resp) then mret resp else
    let '(targetID, d) := Identity (targetInfo a) reqPlan (RespDiagnostics resp) in
    let resp := withDiag resp d in
    if HasError (RespDiagnostics resp) then mret resp else
    let '(tuples, d) := planToTuples targetID plan (RespDiagnostics resp) in
    let resp := withDiag resp d in
    if HasError (RespDiagnostics resp) then mret resp else
    err ← AddTuples tuples;
    match err with
    | Some e =>
        mret (withDiag resp
                (AddError (RespDiagnostics resp) "Client Error"
                   ("Unable to read add access relationships, got error: " +:+ e)))
    | None => mret (State_Set resp plan)
    end.

(** [genericJAASAccessResource.Read]. *)
Definition Read (fuel : nat) (a : genericJAASAccessResource) (reqState : Getter)
    (resp : Response) : M (option Response) :=
  if negb (client a) then
    mret (Some (withDiag resp
            (addClientNotConfiguredError (RespDiagnostics resp) "access model" "read")))
  else
    let '(plan, ds) := Get reqState in
    let resp := withDiag resp (Append (RespDiagnostics resp) ds) in
    if HasError (RespDiagnostics resp) then mret (Some resp) else
    let '(targetID, d) := Identity (targetInfo a) reqState (RespDiagnostics resp) in
    let resp := withDiag resp d in
    if HasError (RespDiagnostics resp) then mret (Some resp) else
    let readTuple := mkTuple "" (StringValue_String (Access plan)) targetID in
    r ← ReadTuples fuel readTuple;
    match r with
    | None => mret None
    | Some (Err e) =>
        mret (Some (withDiag resp
                (AddError (RespDiagnostics resp) "Client Error"
                   ("Unable to read access rules, got error: " +:+ e))))
    | Some (Ok tuples) =>
        let '(newState, d) := tuplesToPlan tuples (RespDiagnostics resp) in
        let resp := withDiag resp d in
        if HasError (RespDiagnostics resp) then mret (Some resp) else
        let plan := mkModel (Users newState) (ServiceAccounts newState)
                      (Groups newState) (Access plan) (ID plan) in
        mret (Some (State_Set resp plan))
    end.

(** [genericJAASAccessResource.Update]. *)
Definition Update (a : genericJAASAccessResource) (reqState reqPlan : Getter)
    (resp : Response) : M Response :=
  if negb (client a) then
    mret (withDiag resp
            (addClientNotConfiguredError (RespDiagnostics resp) "access model" "update"))
  else
    let '(state, ds) := Get reqState in
    let resp := withDiag resp (Append (RespDiagnostics resp) ds) in
    if HasError (RespDiagnostics resp) then mret resp else
    let '(plan, ds) := Get reqPlan in
    let resp := withDiag resp (Append (RespDiagnostics resp) ds) in
    if HasError (RespDiagnostics resp) then mret resp else
    let '(toAdd, toRemove, d) := diffPlans plan state (RespDiagnostics resp) in
    let resp := withDiag resp d in
    if HasError (RespDiagnostics resp) then mret resp else
    let '(targetID, d) := Identity (targetInfo a) reqState (RespDiagnostics resp) in
    let resp := withDiag resp d in
    if HasError (RespDiagnostics resp) then mret resp else
    let '(tuples, d) := planToTuples targetID toAdd (RespDiagnostics resp) in
    let resp := withDiag resp d in
    if HasError (RespDiagnostics resp) then mret resp else
    err ← AddTuples tuples;
    match err with
    | Some e =>
        mret (withDiag resp
                (AddError (RespDiagnostics resp) "Client Error"
                   ("Unable to add access rules, got error: " +:+ e)))
    | None =>
        let '(tuples, d) := planToTuples targetID toRemove (RespDiagnostics resp) in
        let resp := withDiag resp d in
        if HasError (RespDiagnostics resp) then mret resp else
        err ← DeleteTuples tuples;
        match err with
        | Some e =>
            mret (withDiag resp
                    (AddError (RespDiagnostics resp) "Client Error"
                       ("Unable to remove access rules, got error: " +:+ e)))
        | None => mret (State_Set resp plan)
        end
    end.

(** [genericJAASAccessResource.Delete]. *)
Definition Delete (a : genericJAASAccessResource) (reqState : Getter)
    (resp : Response) : M Response :=
  if negb (client a) then
    mret (withDiag resp
            (addClientNotConfiguredError (RespDiagnostics resp) "access model" "delete"))
  else
    let '(plan, ds) := Get reqState in
    let resp := withDiag resp (Append (RespDiagnostics resp) ds) in
    if HasError (RespDiagnostics resp) then mret resp else
    let '(targetID, d) := Identity (targetInfo a) reqState (RespDiagnostics resp) in
    let resp := withDiag resp d in
    if HasError (RespDiagnostics resp) then mret resp else
    let '(tuples, d) := planToTuples targetID plan (RespDiagnostics resp) in
    let resp := withDiag resp d in
    if HasError (RespDiagnostics resp) then mret resp else
    err ← DeleteTuples tuples;
    match err with
    | Some e =>
        mret (withDiag resp
                (AddError (RespDiagnostics resp) "Client Error"
                   ("Unable to delete access rules, got error: " +:+ e)))
    | None => mret resp
    end.

(** What [req.ProviderData] holds when [Configure] runs: nothing, the
    provider's [*juju.Client], or a value of another type. *)
Inductive ProviderData :=
| DataNil
| DataClient
| DataOther (typeName : string).

(** [genericJAASAccessResource.Configure]. *)
Definition Configure (a : genericJAASAccessResource) (providerData : ProviderData)
    (diag : Diagnostics) : genericJAASAccessResource * Diagnostics :=
  match providerData with
  | DataNil => (a, diag)
  | DataOther typeName =>
      (a, AddError diag "Unexpected Resource Configure Type"
            ("Expected *juju.Client, got: " +:+ typeName
             +:+ ". Please report this issue to the provider developers."))
  | DataClient => (mkResource true (targetInfo a), diag)
  end.

(** [AvoidJAASValidator.Validate]; the validator's client is given by the
    configuration it was created with, [None] for a nil pointer. *)
Definition AvoidJAASValidator_Validate (Client : option ControllerConfiguration)
  : M Diagnostics :=
  let diags := [] in
  match Client with
  | Some config =>
      b ← Client_IsJAAS config;
      if (b : bool) then
        mret (AddWarning diags "Poor use of resource with JAAS."
                ("It is not recommended to use this resource with a JAAS setup. "
                 +:+ "JAAS offers additional enterprise features through the use of dedicated resources. "
                 +:+ "See the provider documentation for more details."))
      else mret diags
  | None => mret diags
  end.

End resources.

End provider.

(* ================================================================== *)
(** ** Package provider: [genericJAASAccessModelResource] *)
(* ================================================================== *)

Module accessModel.
Import go params tf juju.
Import provider (Libraries, StringValue_String, ValueString, StringValue_eq_dec).

(** [genericJAASAccessResourceModel]. *)
Record genericJAASAccessResourceModel := mkModel {
  UUID : StringValue;
  Users : SetValue;
  ServiceAccounts : SetValue;
  Groups : SetValue;
  Access : StringValue;
  ID : StringValue
}.

(** [juju.UpdateAccessModelInput], without the model name and the old
    access, which [Update] takes from [retrieveAccessModelDataFromID],
    declared elsewhere in the package. *)
Record UpdateAccessModelInput := mkInput {
  Grant : list string;
  Revoke : list string;
  InputAccess : string
}.

Section resource.
Context `{libs : Libraries}.

(** [getMissingUsers] and [getAddedUsers] are declared elsewhere in the
    package; [Update] is stated for any pair of such helpers. *)
Variable getMissingUsers : list string -> list string -> list string.
Variable getAddedUsers : list string -> list string -> list string.

(** [genericJAASAccessModelResource.getTuples]; [tag] is the receiver's field. *)
Definition getTuples (tag : string) (plan : genericJAASAccessResourceModel)
    (diag : Diagnostics) : list RelationshipTuple * bool * Diagnostics :=
  let '(users, d) := ElementsAs (Users plan) in
  let diag := Append diag d in
  if HasError diag then ([], false, diag) else
  let baseTuple :=
    mkTuple (tag +:+ "-" +:+ StringValue_String (UUID plan))
            (StringValue_String (Access plan)) "" in
  let tuples :=
    foldl (fun tuples user =>
             tuples ++ [mkTuple ("user-" +:+ user) (Relation baseTuple)
                                (TargetObject baseTuple)])
          [] users in
  let '(groups, d) := ElementsAs (Groups plan) in
  let diag := Append diag d in
  if HasError diag then ([], false, diag) else
  let tuples :=
    foldl (fun tuples group =>
             tuples ++ [mkTuple ("group-" +:+ group) (Relation baseTuple)
                                (TargetObject baseTuple)])
          tuples groups in
  let '(serviceAccounts, d) := ElementsAs (ServiceAccounts plan) in
  let diag := Append diag d in
  if HasError diag then ([], false, diag) else
  let tuples :=
    foldl (fun tuples serviceAccount =>
             tuples ++ [mkTuple ("group-" +:+ serviceAccount) (Relation baseTuple)
                                (TargetObject baseTuple)])
          tuples serviceAccounts in
  (tuples, true, diag).

(** [genericJAASAccessModelResource.Update], from the reading of plan and
    state to the input it hands to [UpdateAccessModel]; [None] is the early
    return without any change.  The users of the current state are read
    from [plan.Users], as the source does. *)
Definition Update (plan state : genericJAASAccessResourceModel)
  : option UpdateAccessModelInput :=
  let anyChange := false in
  let access := ValueString (Access state) in
  let missingUserList := [] in
  let addedUserList := [] in
  let '(planUsers, _) := ElementsAs (Users plan) in
  let '(anyChange, missingUserList, addedUserList) :=
    if negb (SetValue_Equal (Users plan) (Users state)) then
      let '(stateUsers, _) := ElementsAs (Users plan) in
      (true, getMissingUsers stateUsers planUsers, getAddedUsers stateUsers planUsers)
    else (anyChange, missingUserList, addedUserList) in
  let '(anyChange, access) :=
    if negb (bool_decide (Access plan = Access state))
    then (true, ValueString (Access plan))
    else (anyChange, access) in
  if negb anyChange then None
  else Some (mkInput addedUserList missingUserList access).

End resource.

Section import.

(** [fmt.Sprintf] with the verb [%q] on a string, Go's quoting. *)
Variable Sprintf_q : string -> string.

(** The diagnostics and the [id] attribute of an import response. *)
Record ImportResponse := mkImport {
  ImportDiagnostics : Diagnostics;
  ImportID : option string
}.

(** [genericJAASAccessModelResource.ImportState];
    [resource.ImportStatePassthroughID] copies the request's ID to [id]. *)
Definition ImportState (reqID : string) (resp : ImportResponse) : ImportResponse :=
  let IDstr := reqID in
  if negb (Nat.eqb (length (Split IDstr ":"%char)) 3) then
    mkImport
      (AddError (ImportDiagnostics resp) "ImportState Failure"
         ("Malformed AccessModel ID " +:+ Sprintf_q IDstr +:+ ", "
          +:+ "please use format '<modelname>:<access>:<user1,user1>'"))
      (ImportID resp)
  else mkImport (ImportDiagnostics resp) (Some reqID).

End import.

End accessModel.

(* ================================================================== *)
(** ** The UUID pattern of the access resources *)
(* ================================================================== *)

Module uuid.

(** The fragment of Go's regular expressions the pattern needs: a class of
    bytes, a literal byte, concatenation, and a fixed number of repetitions. *)
Inductive re :=
| Class (p : Ascii.ascii -> bool)
| Lit (c : Ascii.ascii)
| Seq (a b : re)
| Rep (n : nat) (r : re).

(** Match [r] at the start of [s] and return what is left of [s].  No
    expression of the fragment can match in two ways. *)
Fixpoint run (r : re) (s : string) : option string :=
  match r with
  | Class p =>
      match s with
      | String c s' => if p c then Some s' else None
      | EmptyString => None
      end
  | Lit c =>
      match s with
      | String c' s' => if Ascii.eqb c' c then Some s' else None
      | EmptyString => None
      end
  | Seq a b =>
      match run a s with
      | Some s' => run b s'
      | None => None
      end
  | Rep n r =>
      Nat.iter n (fun k s => match run r s with Some s' => k s' | None => None end)
        Some s
  end.

(** [MatchString] of an expression anchored with [^] and [$]. *)
Definition MatchString (r : re) (s : string) : bool :=
  match run r s with
  | Some EmptyString => true
  | _ => false
  end.

Definition between (lo hi c : Ascii.ascii) : bool :=
  Nat.leb (Ascii.nat_of_ascii lo) (Ascii.nat_of_ascii c)
  && Nat.leb (Ascii.nat_of_ascii c) (Ascii.nat_of_ascii hi).

(** The class [\w]: ASCII letters, digits and the underscore. *)
Definition word (c : Ascii.ascii) : bool :=
  between "0"%char "9"%char c || between "A"%char "Z"%char c
  || between "a"%char "z"%char c || Ascii.eqb c "_"%char.

(** [uuidMatcher]: [^[\w]{8}(?:-[\w]{4}){3}-[\w]{12}$]. *)
Definition uuidMatcher : re :=
  Seq (Rep 8 (Class word))
      (Seq (Rep 3 (Seq (Lit "-"%char) (Rep 4 (Class word))))
           (Seq (Lit "-"%char) (Rep 12 (Class word)))).

(** All bytes of [s] satisfy [p]. *)
Fixpoint allBytes (p : Ascii.ascii -> bool) (s : string) : bool :=
  match s with
  | EmptyString => true
  | String c s' => p c && allBytes p s'
  end.

End uuid.

(* ================================================================== *)
(** ** Concurrent callers of [sharedClient.IsJAAS] *)
(* ================================================================== *)

Module once.

(** Where a goroutine stands in [IsJAAS].  [sync.Once.Do] is unfolded to its
    fast path (load of the done flag) and its slow path (lock, second load,
    run the function, store the flag, unlock); the stages in between are the
    statements of the function literal passed to [Do]. *)
Inductive pc :=
| Idle                         (* not in a call *)
| Calling (defaultVal : bool)  (* entered IsJAAS, about to load the done flag *)
| WaitLock (defaultVal : bool) (* slow path, waiting for the mutex *)
| Locked (defaultVal : bool)   (* holds the mutex, about to load the flag again *)
| SetDefault (defaultVal : bool) (* sc.isJAAS = defaultVal *)
| Connect                      (* sc.GetConnection(nil) *)
| Probe                        (* jc.ListControllers() *)
| SetTrue                      (* sc.isJAAS = true *)
| CloseConn                    (* deferred conn.Close() *)
| StoreDone                    (* deferred o.done.Store(1) *)
| Unlocking                    (* deferred o.m.Unlock() *)
| Returning.                   (* return sc.isJAAS *)

(** One client instance shared by all goroutines. *)
Record state := mkState {
  threads : nat -> pc;
  done : bool;                 (* checkJAASOnce: the done flag *)
  mutex : option nat;          (* checkJAASOnce: the holder of the mutex *)
  isJAAS : bool;
  probes : nat;                (* capability probes issued so far *)
  results : list bool          (* values returned to callers so far *)
}.

Definition upd (ts : nat -> pc) (i : nat) (p : pc) : nat -> pc :=
  fun j => if Nat.eqb j i then p else ts j.

Definition init : state := mkState (fun _ => Idle) false None false 0 [].

(** What the scheduler cannot know: the argument of a call that starts, and
    whether the controller answers the next request without error. *)
Record choice := mkChoice {
  arg : bool;
  replyOk : bool
}.

Definition setThread (s : state) (i : nat) (p : pc) : state :=
  mkState (upd (threads s) i p) (done s) (mutex s) (isJAAS s) (probes s) (results s).

(** One step of goroutine [i]; [None] when it is blocked on the mutex. *)
Definition next (i : nat) (c : choice) (s : state) : option state :=
  match threads s i with
  | Idle => Some (setThread s i (Calling (arg c)))
  | Calling d =>
      if done s then Some (setThread s i Returning)
      else Some (setThread s i (WaitLock d))
  | WaitLock d =>
      match mutex s with
      | Some _ => None
      | None =>
          Some (mkState (upd (threads s) i (Locked d)) (done s) (Some i)
                  (isJAAS s) (probes s) (results s))
      end
  | Locked d =>
      if done s then Some (setThread s i Unlocking)
      else Some (setThread s i (SetDefault d))
  | SetDefault d =>
      Some (mkState (upd (threads s) i Connect) (done s) (mutex s)
              d (probes s) (results s))
  | Connect =>
      if replyOk c then Some (setThread s i Probe)
      else Some (setThread s i StoreDone)
  | Probe =>
      Some (mkState (upd (threads s) i (if replyOk c then SetTrue else CloseConn))
              (done s) (mutex s) (isJAAS s) (S (probes s)) (results s))
  | SetTrue =>
      Some (mkState (upd (threads s) i CloseConn) (done s) (mutex s)
              true (probes s) (results s))
  | CloseConn => Some (setThread s i StoreDone)
  | StoreDone =>
      Some (mkState (upd (threads s) i Unlocking) true (mutex s)
              (isJAAS s) (probes s) (results s))
  | Unlocking =>
      Some (mkState (upd (threads s) i Returning) (done s) None
              (isJAAS s) (probes s) (results s))
  | Returning =>
      Some (mkState (upd (threads s) i Idle) (done s) (mutex s)
              (isJAAS s) (probes s) (results s ++ [isJAAS s]))
  end.

(** A schedule names, step by step, the goroutine that moves and what it
    meets; a blocked goroutine stays where it is. *)
Definition exec (s : state) (m : nat * choice) : state :=
  match next m.1 m.2 s with
  | Some s' => s'
  | None => s
  end.

Definition run (schedule : list (nat * choice)) : state :=
  foldl exec init schedule.

(** The program points between the lock and the unlock. *)
Definition critical (p : pc) : bool :=
  match p with
  | Locked _ | SetDefault _ | Connect | Probe | SetTrue | CloseConn
  | StoreDone | Unlocking => true
  | _ => false
  end.

(** Inside the function passed to [Do], before the probe. *)
Definition beforeProbe (p : pc) : bool :=
  match p with
  | SetDefault _ | Connect | Probe => true
  | _ => false
  end.

(** Inside the function passed to [Do]. *)
Definition running (p : pc) : bool :=
  match p with
  | SetDefault _ | Connect | Probe | SetTrue | CloseConn | StoreDone => true
  | _ => false
  end.

Definition afterDone (p : pc) : bool :=
  match p with
  | Unlocking | Returning => true
  | _ => false
  end.

(** The invariant of the single-execution guard. *)
Record inv (s : state) : Prop := mkInv {
  inv_mutex : forall j, critical (threads s j) = true -> mutex s = Some j;
  inv_running : forall j, running (threads s j) = true -> done s = false;
  inv_after : forall j, afterDone (threads s j) = true -> done s = true;
  inv_before : forall j, beforeProbe (threads s j) = true -> probes s = 0;
  inv_locked : forall j d, threads s j = Locked d -> done s = false -> probes s = 0;
  inv_free : mutex s = None -> done s = false -> probes s = 0;
  inv_probes : probes s <= 1;
  inv_fresh : done s = false -> results s = [];
  inv_results : forall b, b ∈ results s -> b = isJAAS s
}.

End once.

(* ================================================================== *)
(** ** Test doubles *)
(* ================================================================== *)

(** Concrete stand-ins for the libraries and scripted controllers, used to
    run the code on the scenarios of the specification. *)
Module samples.
Import go params tf juju provider.

Definition dquote : string := String (Ascii.ascii_of_nat 34) EmptyString.

(** The framework renders a known string in quotes. *)
Definition renderString (v : StringValue) : string :=
  match v with
  | StringNull => "<null>"
  | StringUnknown => "<unknown>"
  | StringKnown s => dquote +:+ s +:+ dquote
  end.

(** Split a tag at its first dash; only user, group and model kinds with a
    non-empty identifier are accepted. *)
Definition parseTag (s : string) : result Tag :=
  match String.index 0 "-" s with
  | None => Err (s +:+ " is not a valid tag")
  | Some i =>
      let kind := String.substring 0 i s in
      let id := String.substring (S i) (String.length s - S i) s in
      if (String.eqb kind "user" || String.eqb kind "group" || String.eqb kind "model")
         && negb (String.eqb id "")
      then Ok (mkTag kind id)
      else Err (s +:+ " is not a valid tag")
  end.

Definition serviceAccountSuffix : string := "@serviceaccount".

Definition isServiceAccountId (id : string) : bool :=
  let n := String.length serviceAccountSuffix in
  Nat.ltb n (String.length id)
  && String.eqb (String.substring (String.length id - n) n id) serviceAccountSuffix.

Definition libs : Libraries := {|
  StringValue_String := renderString;
  NewUserTag_String := fun s => "user-" +:+ s;
  NewModelTag_String := fun s => "model-" +:+ s;
  ParseTag := parseTag;
  IsValidServiceAccountId := isServiceAccountId
|}.

(** A controller that accepts every request and holds the tuples [pages],
    served one page per request: the page after token [k] is page [k]. *)
Definition tokenIndex (tok : string) : nat :=
  if String.eqb tok "" then 0
  else if String.eqb tok "a" then 1
  else if String.eqb tok "b" then 2
  else if String.eqb tok "c" then 3
  else 4.

Definition indexToken (i : nat) : string :=
  match i with
  | 1 => "a" | 2 => "b" | 3 => "c" | _ => "z"
  end.

Definition pagedController (pages : list (list RelationshipTuple)) : Controller := {|
  connect := fun _ _ => None;
  addRelation := fun _ _ => None;
  removeRelation := fun _ _ => None;
  listRelationshipTuples := fun _ req =>
    let i := tokenIndex (ContinuationToken req) in
    match pages !! i with
    | None => Err "unknown continuation token"
    | Some page =>
        Ok (mkListResponse page []
              (if Nat.ltb (S i) (length pages) then indexToken (S i) else ""))
    end;
  listControllers := fun _ => None;
  listModelSummaries := fun _ => Ok []
|}.

(** A controller that accepts every request and lists nothing. *)
Definition okController : Controller := pagedController [].

(** A controller that accepts the tuples it is given but refuses to remove
    any. *)
Definition keepingController : Controller := {|
  connect := fun _ _ => None;
  addRelation := fun _ _ => None;
  removeRelation := fun _ _ => Some "removal refused";
  listRelationshipTuples := fun _ _ => Ok (mkListResponse [] [] "");
  listControllers := fun _ => None;
  listModelSummaries := fun _ => Ok []
|}.

(** A controller whose listing returns [tuples] in a single page. *)
Definition listingController (tuples : list RelationshipTuple) : Controller :=
  pagedController [tuples].

(** A controller the client cannot connect to. *)
Definition unreachableController : Controller := {|
  connect := fun _ _ => Some "connection refused";
  addRelation := fun _ _ => None;
  removeRelation := fun _ _ => None;
  listRelationshipTuples := fun _ _ => Err "unreachable";
  listControllers := fun _ => None;
  listModelSummaries := fun _ => Err "unreachable"
|}.

(** A plain Juju controller: it can be reached, but the JAAS call fails. *)
Definition plainController : Controller := {|
  connect := fun _ _ => None;
  addRelation := fun _ _ => Some "not supported";
  removeRelation := fun _ _ => Some "not supported";
  listRelationshipTuples := fun _ _ => Err "not supported";
  listControllers := fun _ => Some "not supported";
  listModelSummaries := fun _ => Ok []
|}.

(** A controller that knows the models of [summaries]. *)
Definition modelsController (summaries : list modelcache.ModelSummary) : Controller := {|
  connect := fun _ _ => None;
  addRelation := fun _ _ => None;
  removeRelation := fun _ _ => None;
  listRelationshipTuples := fun _ _ => Ok (mkListResponse [] [] "");
  listControllers := fun _ => None;
  listModelSummaries := fun _ => Ok summaries
|}.

Definition config : ControllerConfiguration := mkConfig [] "admin" "secret" "" "" "".

Definition freshWorld : World := mkWorld (NewClient config) [].

(** The configuration of a client with client credentials. *)
Definition jaasConfig : ControllerConfiguration :=
  mkConfig [] "" "" "" "client-id" "client-secret".

Definition resource : genericJAASAccessResource := mkResource true (@modelInfo libs).

Definition readerModel (users groups serviceAccounts : list string)
  : genericJAASAccessModel :=
  provider.mkModel users serviceAccounts groups (StringKnown "reader") StringNull.

Definition getter (m : genericJAASAccessModel) : Getter :=
  mkGetter (StringKnown "1234") m [].

Definition emptyResponse : Response := mkResponse [] None.

(** The tuple granting [reader] on model 1234 to [object]. *)
Definition readerTuple (object : string) : RelationshipTuple :=
  mkTuple object "reader" "model-1234".

(** The pattern [Read] lists with: any object with [reader] on model 1234. *)
Definition readerPattern : RelationshipTuple := readerTuple "".

(** A listing in three pages of sizes 2, 2 and 1. *)
Definition threePages : list (list RelationshipTuple) :=
  [[readerTuple "user-alice"; readerTuple "user-bob"];
   [readerTuple "user-carol"; readerTuple "group-admins"];
   [readerTuple "user-dave@serviceaccount"]].

(** A listing with one object that is no tag. *)
Definition oneMalformed : list RelationshipTuple :=
  [readerTuple "garbage"; readerTuple "user-bob"; readerTuple "group-admins"].

(** The state before the read: one user, zed. *)
Definition priorState : genericJAASAccessModel := readerModel ["zed"] [] [].

(** Schedules: [n] steps of goroutine [i], calling with argument [d] and
    meeting a controller that answers ([ok]) or fails every request.  A
    first call takes twelve steps when the controller answers and nine when
    the connection fails; a call that finds the guard closed takes three. *)
Definition solo (i : nat) (d ok : bool) (n : nat) : list (nat * once.choice) :=
  replicate n (i, once.mkChoice d ok).

(** A controller that lets the client connect or not, and answers the
    capability probe or not. *)
Definition flagController (connOk probeOk : bool) : Controller := {|
  connect := fun _ _ => if connOk then None else Some "connection refused";
  addRelation := fun _ _ => None;
  removeRelation := fun _ _ => None;
  listRelationshipTuples := fun _ _ => Ok (mkListResponse [] [] "");
  listControllers := fun _ => if probeOk then None else Some "not supported";
  listModelSummaries := fun _ => Ok []
|}.

(** The first call of goroutine [i], run to its return against
    [flagController connOk probeOk]. *)
Definition firstCall (i : nat) (d connOk probeOk : bool) : list (nat * once.choice) :=
  solo i d true 5 ++ solo i d connOk 1
  ++ (if connOk
      then solo i d probeOk 1 ++ solo i d true (if probeOk then 5 else 4)
      else solo i d true 3).

(** Goroutine 0 takes the lock; goroutine 1 calls and has to wait; 0 runs
    the check and returns; then 1 gets the lock, finds the guard closed and
    returns. *)
Definition overlapping (d0 d1 ok : bool) : list (nat * once.choice) :=
  solo 0 d0 ok 3 ++ solo 1 d1 ok 4 ++ solo 0 d0 ok 9 ++ solo 1 d1 ok 4.

(** Goroutine 0 connects, its probe fails, and it returns; then goroutine 1
    calls, and goroutine 0 calls again. *)
Definition failingProbe (d0 d1 : bool) : list (nat * once.choice) :=
  solo 0 d0 true 6 ++ solo 0 d0 false 1 ++ solo 0 d0 true 4
  ++ solo 1 d1 true 3 ++ solo 0 d1 true 3.

(** A state of [genericJAASAccessModelResource] with the given users. *)
Definition usersModel (users : list string)
  : accessModel.genericJAASAccessResourceModel :=
  accessModel.mkModel (StringKnown "1234") users [] [] (StringKnown "reader") StringNull.

End samples.

(* ================================================================== *)
(** * Properties *)
(* ================================================================== *)

Import go params tf juju.

(** ** Diagnostics *)

Lemma Append_nil (ds : Diagnostics) : Append ds [] = ds.
Proof. reflexivity. Qed.

Lemma HasError_app (ds ds' : Diagnostics) :
  HasError (ds ++ ds') = HasError ds || HasError ds'.
Proof. unfold HasError. apply existsb_app. Qed.

Lemma HasError_elem (ds : Diagnostics) (d : Diagnostic) :
  d ∈ ds -> isError d = true -> HasError ds = true.
Proof.
  intros Hin Herr. unfold HasError. apply existsb_exists.
  exists d. split; [by apply list_elem_of_In | done].
Qed.

Lemma HasError_Append (ds new : Diagnostics) :
  HasError (Append ds new) = HasError ds || HasError new.
Proof.
  unfold Append. revert ds.
  induction new as [|d new IH]; intros ds; simpl.
  - by rewrite orb_false_r.
  - rewrite IH. case_bool_decide as Hd.
    + destruct (isError d) eqn:Hed; simpl; [|done].
      rewrite (HasError_elem ds d Hd Hed). done.
    + rewrite HasError_app. simpl. rewrite orb_false_r.
      by rewrite orb_assoc.
Qed.

Lemma HasError_AddError (ds : Diagnostics) (s d : string) :
  HasError (AddError ds s d) = true.
Proof. unfold AddError. rewrite HasError_Append. simpl. apply orb_true_r. Qed.

(** ** Set differences *)

Section diff.
Import provider.

Lemma found_loop (source : string) (desired : list string) (b : bool) :
  foldl (fun found target => if String.eqb source target then true else found)
        b desired
  = b || bool_decide (source ∈ desired).
Proof.
  revert b. induction desired as [|t desired IH]; intros b; simpl.
  - by rewrite orb_false_r.
  - rewrite IH. destruct (String.eqb_spec source t) as [->|Hne].
    + rewrite (bool_decide_eq_true_2 (t ∈ t :: desired)); [|by apply list_elem_of_here].
      by rewrite orb_true_r.
    + f_equal. apply bool_decide_ext. rewrite elem_of_cons. intuition congruence.
Qed.

Lemma diff_loop (current desired acc : list string) :
  foldl (fun diff source =>
           let found :=
             foldl (fun found target =>
                      if String.eqb source target then true else found)
                   false desired in
           if negb found then diff ++ [source] else diff)
        acc current
  = acc ++ filter (fun x => x ∉ desired) current.
Proof.
  revert acc. induction current as [|x current IH]; intros acc; simpl.
  - by rewrite app_nil_r.
  - rewrite IH, found_loop. simpl. rewrite filter_cons.
    case_bool_decide; case_decide; simpl; try done.
    by rewrite <- app_assoc.
Qed.

(** [diffSet] keeps, in order, the elements of [current] absent from
    [desired], and reports nothing. *)
Lemma diffSet_filter (current desired : SetValue) (diag : Diagnostics) :
  diffSet current desired diag = (filter (fun x => x ∉ desired) current, diag).
Proof. unfold diffSet. by rewrite diff_loop. Qed.

Lemma diffSet_elem (current desired : SetValue) (diag : Diagnostics) (x : string) :
  x ∈ (diffSet current desired diag).1 <-> x ∈ current /\ x ∉ desired.
Proof. rewrite diffSet_filter. simpl. rewrite list_elem_of_filter. tauto. Qed.

(** As finite sets, [diffSet] is the set difference. *)
Lemma diffSet_difference (current desired : SetValue) (diag : Diagnostics) :
  list_to_set (C := gset string) (diffSet current desired diag).1
  = list_to_set current ∖ list_to_set desired.
Proof.
  apply set_eq. intros x.
  rewrite elem_of_difference, !elem_of_list_to_set. apply diffSet_elem.
Qed.

(** Adding [D \ P] to [P] and then taking [P \ D] away leaves [D]. *)
Lemma diffSet_converges (D P : SetValue) (diag : Diagnostics) :
  (list_to_set (C := gset string) P ∪ list_to_set (diffSet D P diag).1)
    ∖ list_to_set (diffSet P D diag).1
  = list_to_set D.
Proof.
  rewrite !diffSet_difference. apply set_eq. intros x.
  rewrite elem_of_difference, elem_of_union, !elem_of_difference.
  destruct (decide (x ∈ (list_to_set D : gset string)));
    destruct (decide (x ∈ (list_to_set P : gset string))); tauto.
Qed.

(** [diffPlans] on the generic access resource: per subject set, the add
    side is [plan \ state], the remove side is [state \ plan], an element
    of both states is on neither side, and the two sides take the state to
    the plan. *)
Theorem diffPlans_correct (plan state : genericJAASAccessModel) (diag : Diagnostics) :
  let '(toAdd, toRemove, diag') := diffPlans plan state diag in
  let set := list_to_set (C := gset string) in
  diag' = diag /\
  (set (Users toAdd) = set (Users plan) ∖ set (Users state) /\
   set (Users toRemove) = set (Users state) ∖ set (Users plan) /\
   (set (Users state) ∪ set (Users toAdd)) ∖ set (Users toRemove)
     = set (Users plan)) /\
  (set (Groups toAdd) = set (Groups plan) ∖ set (Groups state) /\
   set (Groups toRemove) = set (Groups state) ∖ set (Groups plan) /\
   (set (Groups state) ∪ set (Groups toAdd)) ∖ set (Groups toRemove)
     = set (Groups plan)) /\
  (set (ServiceAccounts toAdd)
     = set (ServiceAccounts plan) ∖ set (ServiceAccounts state) /\
   set (ServiceAccounts toRemove)
     = set (ServiceAccounts state) ∖ set (ServiceAccounts plan) /\
   (set (ServiceAccounts state) ∪ set (ServiceAccounts toAdd))
       ∖ set (ServiceAccounts toRemove)
     = set (ServiceAccounts plan)).
Proof.
  unfold diffPlans. rewrite !diffSet_filter. simpl.
  pose proof (diffSet_difference) as Hd.
  pose proof (diffSet_converges) as Hc.
  setoid_rewrite diffSet_filter in Hd. setoid_rewrite diffSet_filter in Hc.
  simpl in Hd, Hc.
  repeat split; first [apply (Hd _ _ []) | apply (Hc _ _ [])].
Qed.

End diff.

(** ** The update of [genericJAASAccessModelResource] *)

Section accessModel_update.
Import accessModel.
Import samples (usersModel).

(** When the users differ, both lists handed to [UpdateAccessModel] are
    computed from the planned users alone. *)
Lemma accessModel_Update_changed
    (getMissingUsers getAddedUsers : list string -> list string -> list string)
    (plan state : genericJAASAccessResourceModel) :
  SetValue_Equal (Users plan) (Users state) = false ->
  exists access,
    Update getMissingUsers getAddedUsers plan state
    = Some (mkInput (getAddedUsers (Users plan) (Users plan))
                    (getMissingUsers (Users plan) (Users plan)) access).
Proof.
  intros Hne. unfold Update, ElementsAs. rewrite Hne. simpl.
  case_bool_decide; simpl; eauto.
Qed.

(** C1: for a previous state with users alice and bob and a plan with users
    bob and carol, the update is to add carol (plan minus state) and to
    remove alice (state minus plan).  [genericJAASAccessModelResource.Update]
    instead reads the users of the current state from the plan, so the
    lists it grants and revokes are the helpers' results on the planned
    users against themselves, whatever the previous state holds. *)
Theorem accessModel_Update_reads_plan_twice
    (getMissingUsers getAddedUsers : list string -> list string -> list string) :
  Update getMissingUsers getAddedUsers
    (usersModel ["bob"; "carol"]) (usersModel ["alice"; "bob"])
  = Some (mkInput (getAddedUsers ["bob"; "carol"] ["bob"; "carol"])
                  (getMissingUsers ["bob"; "carol"] ["bob"; "carol"])
                  "reader").
Proof. reflexivity. Qed.

(** No choice of the two helpers makes this update revoke the users that
    left the plan: two previous states that differ from the plan get the
    same list. *)
Lemma accessModel_Update_cannot_revoke
    (getMissingUsers getAddedUsers : list string -> list string -> list string) :
  ~ (forall plan state input,
       Update getMissingUsers getAddedUsers plan state = Some input ->
       list_to_set (C := gset string) (Revoke input)
       = list_to_set (Users state) ∖ list_to_set (Users plan)).
Proof.
  intros Hall.
  pose proof (Hall (usersModel ["bob"]) (usersModel ["alice"]) _ eq_refl) as H1.
  pose proof (Hall (usersModel ["bob"]) (usersModel ["carol"]) _ eq_refl) as H2.
  simpl in H1, H2. rewrite H1 in H2.
  assert (Hin : "alice" ∈ ({["alice"]} ∪ ∅ : gset string) ∖ ({["bob"]} ∪ ∅))
    by set_solver.
  rewrite H2 in Hin. set_solver.
Qed.

(** The same update returns before any call when neither the users nor the
    access changed. *)
Lemma accessModel_Update_unchanged
    (getMissingUsers getAddedUsers : list string -> list string -> list string)
    (plan state : genericJAASAccessResourceModel) :
  SetValue_Equal (Users plan) (Users state) = true ->
  Access plan = Access state ->
  Update getMissingUsers getAddedUsers plan state = None.
Proof.
  intros Heq Hacc. unfold Update, ElementsAs. rewrite Heq. simpl.
  by rewrite bool_decide_eq_true_2.
Qed.

End accessModel_update.

(** ** The JAAS client *)

Section jaas_client.
Context `{ctl : Controller}.

Lemma GetConnection_nil_run (w : World) :
  GetConnection None w
  = (connect (trace w) "", mkWorld (sc w) (trace w ++ [CConnect ""])).
Proof. reflexivity. Qed.

Lemma AddTuples_run (tuples : list RelationshipTuple) (w : World) :
  AddTuples tuples w =
  match connect (trace w) "" with
  | Some e => (Some e, mkWorld (sc w) (trace w ++ [CConnect ""]))
  | None =>
      (addRelation (trace w ++ [CConnect ""]) tuples,
       mkWorld (sc w) (trace w ++ [CConnect ""; CAddRelation tuples; CClose]))
  end.
Proof.
  unfold AddTuples, mbind, M_bind. rewrite GetConnection_nil_run.
  destruct (connect (trace w) ""); [done|].
  unfold call, Close, emit, mret, M_ret. simpl.
  by rewrite <- !app_assoc.
Qed.

Lemma DeleteTuples_run (tuples : list RelationshipTuple) (w : World) :
  DeleteTuples tuples w =
  match connect (trace w) "" with
  | Some e => (Some e, mkWorld (sc w) (trace w ++ [CConnect ""]))
  | None =>
      (removeRelation (trace w ++ [CConnect ""]) tuples,
       mkWorld (sc w) (trace w ++ [CConnect ""; CRemoveRelation tuples; CClose]))
  end.
Proof.
  unfold DeleteTuples, mbind, M_bind. rewrite GetConnection_nil_run.
  destruct (connect (trace w) ""); [done|].
  unfold call, Close, emit, mret, M_ret. simpl.
  by rewrite <- !app_assoc.
Qed.

(** One iteration of the listing loop, spelled out. *)
Lemma ReadTuples_loop_S (fuel : nat) (req : ListRelationshipTuplesRequest)
    (tuples : list RelationshipTuple) (w : World) :
  ReadTuples_loop (S fuel) req tuples w =
  let w1 := mkWorld (sc w) (trace w ++ [CListRelationshipTuples req]) in
  match listRelationshipTuples (trace w) req with
  | Err e => (Some (Err (errors_Trace e)), w1)
  | Ok response =>
      match Errors response with
      | e0 :: _ => (Some (Err e0), w1)
      | [] =>
          if String.eqb (RespContinuationToken response) ""
          then (Some (Ok (tuples ++ Tuples response)), w1)
          else ReadTuples_loop fuel
                 (mkListRequest (Tuple req) (RespContinuationToken response))
                 (tuples ++ Tuples response) w1
      end
  end.
Proof.
  simpl. unfold mbind, M_bind, call. simpl.
  destruct (listRelationshipTuples (trace w) req) as [response|e]; [|done].
  destruct (Errors response); [|done].
  by destruct (String.eqb (RespContinuationToken response) "").
Qed.

(** If the controller's listing ends, enough iterations collect all of it. *)
Lemma ReadTuples_loop_complete (tuple : RelationshipTuple)
    (h : list Event) (tok : string) (pages : list (list RelationshipTuple))
    (h' : list Event) :
  listing tuple h tok pages h' ->
  forall fuel acc s, length pages <= fuel ->
    ReadTuples_loop fuel (mkListRequest tuple tok) acc (mkWorld s h)
    = (Some (Ok (acc ++ concat pages)), mkWorld s h').
Proof.
  induction 1 as [h tok response Hr He Ht | h tok response pages h' Hr He Ht Hl IH];
    intros fuel acc s Hfuel.
  - destruct fuel as [|fuel]; [simpl in Hfuel; lia|].
    rewrite ReadTuples_loop_S. simpl. rewrite Hr, He, Ht. simpl.
    by rewrite app_nil_r.
  - destruct fuel as [|fuel]; [simpl in Hfuel; lia|].
    rewrite ReadTuples_loop_S. simpl. rewrite Hr, He.
    destruct (String.eqb_spec (RespContinuationToken response) "") as [Heq|_];
      [by destruct Ht|].
    rewrite IH; [|simpl in Hfuel; lia].
    by rewrite <- app_assoc.
Qed.

(** A successful loop has seen the whole listing, up to the empty token. *)
Lemma ReadTuples_loop_sound (tuple : RelationshipTuple) (fuel : nat) :
  forall tok acc w ts w',
    ReadTuples_loop fuel (mkListRequest tuple tok) acc w = (Some (Ok ts), w') ->
    exists pages,
      listing tuple (trace w) tok pages (trace w')
      /\ ts = acc ++ concat pages /\ sc w' = sc w /\ length pages <= fuel.
Proof.
  induction fuel as [|fuel IH]; intros tok acc w ts w' Hrun; [done|].
  rewrite ReadTuples_loop_S in Hrun. simpl in Hrun.
  destruct (listRelationshipTuples (trace w) (mkListRequest tuple tok))
    as [response|e] eqn:Hr; [|done].
  destruct (Errors response) eqn:He; [|done].
  destruct (String.eqb_spec (RespContinuationToken response) "") as [Ht|Ht].
  - injection Hrun as <- <-. exists [Tuples response]. simpl.
    rewrite app_nil_r. repeat split; [|lia].
    by apply listing_last.
  - apply IH in Hrun as (pages & Hl & -> & Hsc & Hlen). simpl in *.
    exists (Tuples response :: pages). simpl.
    rewrite <- app_assoc. repeat split; [|done|lia].
    by eapply listing_more.
Qed.

(** The loop never hands out what it has gathered when a page fails. *)
Lemma ReadTuples_loop_page_error (fuel : nat) (req : ListRelationshipTuplesRequest)
    (acc : list RelationshipTuple) (w : World) (e : error) :
  listRelationshipTuples (trace w) req = Err e ->
  (ReadTuples_loop (S fuel) req acc w).1 = Some (Err e).
Proof. intros Hr. rewrite ReadTuples_loop_S. simpl. by rewrite Hr. Qed.

(** C3: [ReadTuples] follows the continuation tokens of the controller's
    listing: when the listing ends with an empty token after some pages, the
    call (given at least as many iterations as there are pages) returns the
    concatenation of all of them; and whenever the call returns tuples, they
    are the concatenation of the pages of a listing followed to its empty
    token, never a prefix of it. *)
Theorem ReadTuples_all_pages (tuple : RelationshipTuple) (w : World) :
  (forall pages h' fuel,
     connect (trace w) "" = None ->
     listing tuple (trace w ++ [CConnect ""]) "" pages h' ->
     length pages <= fuel ->
     ReadTuples fuel tuple w
     = (Some (Ok (concat pages)), mkWorld (sc w) (h' ++ [CClose])))
  /\
  (forall fuel ts w',
     ReadTuples fuel tuple w = (Some (Ok ts), w') ->
     exists pages h',
       connect (trace w) "" = None
       /\ listing tuple (trace w ++ [CConnect ""]) "" pages h'
       /\ ts = concat pages
       /\ w' = mkWorld (sc w) (h' ++ [CClose])).
Proof.
  split.
  - intros pages h' fuel Hc Hl Hfuel.
    unfold ReadTuples, mbind, M_bind. rewrite GetConnection_nil_run, Hc.
    rewrite (ReadTuples_loop_complete tuple _ _ _ _ Hl fuel [] _ Hfuel).
    reflexivity.
  - intros fuel ts w' Hrun.
    unfold ReadTuples, mbind, M_bind in Hrun.
    rewrite GetConnection_nil_run in Hrun.
    destruct (connect (trace w) "") as [e|]; [done|].
    destruct (ReadTuples_loop fuel (mkListRequest tuple "") []
                (mkWorld (sc w) (trace w ++ [CConnect ""]))) as [r w1] eqn:Hloop.
    unfold Close, emit, mret, M_ret in Hrun. simpl in Hrun.
    injection Hrun as -> <-.
    apply ReadTuples_loop_sound in Hloop as (pages & Hl & -> & Hsc & _).
    simpl in *. exists pages, (trace w1).
    repeat split; [done|]. by rewrite Hsc.
Qed.

End jaas_client.

(** The three-page listing of the specification: page sizes 2, 2 and 1,
    tokens a, b and the empty token; all five tuples come back. *)
Lemma ReadTuples_three_pages :
  @ReadTuples (samples.pagedController samples.threePages) 3
     samples.readerPattern samples.freshWorld
  = (Some (Ok [samples.readerTuple "user-alice"; samples.readerTuple "user-bob";
               samples.readerTuple "user-carol"; samples.readerTuple "group-admins";
               samples.readerTuple "user-dave@serviceaccount"]),
     mkWorld (sc samples.freshWorld)
       [CConnect "";
        CListRelationshipTuples (mkListRequest samples.readerPattern "");
        CListRelationshipTuples (mkListRequest samples.readerPattern "a");
        CListRelationshipTuples (mkListRequest samples.readerPattern "b");
        CClose]).
Proof.
  apply (proj1 (@ReadTuples_all_pages (samples.pagedController samples.threePages)
                  samples.readerPattern samples.freshWorld)
           samples.threePages
           [CConnect "";
            CListRelationshipTuples (mkListRequest samples.readerPattern "");
            CListRelationshipTuples (mkListRequest samples.readerPattern "a");
            CListRelationshipTuples (mkListRequest samples.readerPattern "b")]
           3).
  - reflexivity.
  - apply (@listing_more _ _ [CConnect ""] ""
             (mkListResponse
                [samples.readerTuple "user-alice"; samples.readerTuple "user-bob"] [] "a"));
      [reflexivity|reflexivity|discriminate|].
    apply (@listing_more _ _ [CConnect ""; _] "a"
             (mkListResponse
                [samples.readerTuple "user-carol"; samples.readerTuple "group-admins"] [] "b"));
      [reflexivity|reflexivity|discriminate|].
    apply (@listing_last _ _ [CConnect ""; _; _] "b"
             (mkListResponse [samples.readerTuple "user-dave@serviceaccount"] [] ""));
      reflexivity.
  - simpl. lia.
Defined.

(** ** The shared client *)

Section shared_client.
Context `{ctl : Controller}.

Lemma cacheLookup_run (name : string) (w : World) :
  cacheLookup name w
  = (modelcache.Lookup name (modelCache (sc w)),
     mkWorld (sc w) (trace w ++ [CacheLookup name])).
Proof. reflexivity. Qed.

Lemma fillModelCache_run (w : World) :
  fillModelCache w =
  match connect (trace w) "" with
  | Some e => (Some e, mkWorld (sc w) (trace w ++ [CConnect ""]))
  | None =>
      match listModelSummaries (trace w ++ [CConnect ""]) with
      | Err e =>
          (Some e,
           mkWorld (sc w) (trace w ++ [CConnect ""; CListModelSummaries; CClose]))
      | Ok modelSummaries =>
          (None,
           mkWorld
             (mkShared (controllerConfig (sc w))
                (modelcache.FillCache modelSummaries (modelCache (sc w)))
                (checkJAASOnce (sc w)) (isJAAS (sc w)))
             (trace w ++ [CConnect ""; CListModelSummaries; CacheFill; CClose]))
      end
  end.
Proof.
  unfold fillModelCache, mbind, M_bind, dial, call. simpl.
  destruct (connect (trace w) ""); [done|]. simpl.
  destruct (listModelSummaries (trace w ++ [CConnect ""])); simpl;
    unfold Close, emit, mret, M_ret; simpl; by rewrite <- !app_assoc.
Qed.

(** C8: [ModelUUID] answers from the cache when the first lookup hits: it
    returns the record's UUID and neither contacts the controller nor touches
    the cache.  On a miss it runs one refill; if the refill fails (no
    connection, or the model listing fails) that error is returned and no
    second lookup is made; otherwise it looks the name up exactly once more
    in the refilled cache and returns the UUID found, or the lookup's error
    when the name is still absent. *)
Theorem ModelUUID_refill_and_retry (modelName : string) (w : World) :
  let '(r, w') := ModelUUID modelName w in
  let h1 := trace w ++ [CacheLookup modelName] in
  match modelcache.Lookup modelName (modelCache (sc w)) with
  | Ok model =>
      r = Ok (modelcache.UUID model) /\ sc w' = sc w /\ trace w' = h1
  | Err _ =>
      match connect h1 "" with
      | Some e =>
          r = Err e /\ sc w' = sc w /\ trace w' = h1 ++ [CConnect ""]
      | None =>
          match listModelSummaries (h1 ++ [CConnect ""]) with
          | Err e =>
              r = Err e /\ sc w' = sc w
              /\ trace w' = h1 ++ [CConnect ""; CListModelSummaries; CClose]
          | Ok summaries =>
              let refilled := modelcache.FillCache summaries (modelCache (sc w)) in
              modelCache (sc w') = refilled
              /\ trace w'
                 = h1 ++ [CConnect ""; CListModelSummaries; CacheFill; CClose;
                          CacheLookup modelName]
              /\ r = match modelcache.Lookup modelName refilled with
                     | Ok model => Ok (modelcache.UUID model)
                     | Err e => Err e
                     end
          end
      end
  end.
Proof.
  unfold ModelUUID, mbind, M_bind. rewrite cacheLookup_run.
  destruct (modelcache.Lookup modelName (modelCache (sc w))) as [model|e0] eqn:Hhit;
    [done|].
  rewrite fillModelCache_run. simpl.
  destruct (connect (trace w ++ [CacheLookup modelName]) "") as [e|]; [done|].
  destruct (listModelSummaries ((trace w ++ [CacheLookup modelName]) ++ [CConnect ""]))
    as [summaries|e]; [|done].
  simpl.
  destruct (modelcache.Lookup modelName
              (modelcache.FillCache summaries (modelCache (sc w))));
    simpl; by rewrite <- !app_assoc.
Qed.

(** The refill replaces the table: what it leaves does not depend on what
    the cache held before. *)
Lemma FillCache_replaces (summaries : list modelcache.ModelSummary)
    (c c' : gmap string modelcache.Model) :
  modelcache.FillCache summaries c = modelcache.FillCache summaries c'.
Proof. reflexivity. Qed.

(** A model known to the controller and missing from the cache is found
    after the refill. *)
Example ModelUUID_after_refill :
  (@ModelUUID
     (samples.modelsController [modelcache.mkSummary "dev" "admin" "1234" "iaas"])
     "dev" samples.freshWorld).1
  = Ok "1234".
Proof. reflexivity. Qed.

(** A model the controller does not know is reported after one refill. *)
Example ModelUUID_unknown_model :
  @ModelUUID (samples.modelsController []) "dev" samples.freshWorld
  = (Err "model not found: dev",
     mkWorld (sc samples.freshWorld)
       [CacheLookup "dev"; CConnect ""; CListModelSummaries; CacheFill; CClose;
        CacheLookup "dev"]).
Proof. reflexivity. Qed.

Lemma IsJAAS_first_run (defaultVal : bool) (w : World) :
  checkJAASOnce (sc w) = false ->
  IsJAAS defaultVal w =
  let done b h :=
    (b, mkWorld (mkShared (controllerConfig (sc w)) (modelCache (sc w)) true b) h) in
  match connect (trace w) "" with
  | Some _ => done defaultVal (trace w ++ [CConnect ""])
  | None =>
      match listControllers (trace w ++ [CConnect ""]) with
      | None => done true (trace w ++ [CConnect ""; CListControllers; CClose])
      | Some _ => done defaultVal (trace w ++ [CConnect ""; CListControllers; CClose])
      end
  end.
Proof.
  intros Hfresh. unfold IsJAAS, mbind, M_bind, Once_Do. rewrite Hfresh.
  simpl.
  destruct (connect (trace w) ""); [done|].
  simpl.
  destruct (listControllers (trace w ++ [CConnect ""])); simpl;
    by rewrite <- !app_assoc.
Qed.

(** Once the guard is set, [IsJAAS] returns the stored value, whatever the
    default, and contacts nobody. *)
Lemma IsJAAS_memoized (defaultVal : bool) (w : World) :
  checkJAASOnce (sc w) = true ->
  IsJAAS defaultVal w = (isJAAS (sc w), w).
Proof.
  intros Hdone. unfold IsJAAS, mbind, M_bind, Once_Do. by rewrite Hdone.
Qed.

(** After any call the guard is set and the stored value is the one returned. *)
Lemma IsJAAS_sets_guard (defaultVal : bool) (w : World) :
  let '(b, w') := IsJAAS defaultVal w in
  checkJAASOnce (sc w') = true /\ isJAAS (sc w') = b.
Proof.
  destruct (checkJAASOnce (sc w)) eqn:Hg.
  - by rewrite IsJAAS_memoized.
  - rewrite IsJAAS_first_run by done. simpl.
    destruct (connect (trace w) ""); [done|].
    by destruct (listControllers (trace w ++ [CConnect ""])).
Qed.

(** C9: on a client whose check has not run yet, [IsJAAS] returns true when
    the connection is obtained and the probe call succeeds, and returns the
    default it was given when the connection cannot be obtained or the probe
    call fails; the result is a plain boolean in every case. *)
Theorem IsJAAS_probe_or_default (defaultVal : bool) (w : World) :
  checkJAASOnce (sc w) = false ->
  (IsJAAS defaultVal w).1 =
  match connect (trace w) "" with
  | Some _ => defaultVal
  | None =>
      match listControllers (trace w ++ [CConnect ""]) with
      | None => true
      | Some _ => defaultVal
      end
  end.
Proof.
  intros Hfresh. rewrite IsJAAS_first_run by done. simpl.
  destruct (connect (trace w) ""); [done|].
  by destruct (listControllers (trace w ++ [CConnect ""])).
Qed.

End shared_client.

(** Against a controller that rejects the JAAS call, a client created with
    client credentials reports the default, true. *)
Lemma IsJAAS_plain_controller_default :
  (@IsJAAS samples.plainController true samples.freshWorld).1 = true.
Proof.
  exact (@IsJAAS_probe_or_default samples.plainController true
           samples.freshWorld eq_refl).
Defined.

Example IsJAAS_unreachable_default :
  (@IsJAAS samples.unreachableController false samples.freshWorld).1 = false.
Proof. reflexivity. Qed.

Example IsJAAS_probe_succeeds :
  (@IsJAAS (samples.pagedController []) false samples.freshWorld).1 = true.
Proof. reflexivity. Qed.

(** [NewClient] hands [IsJAAS] a default that is true exactly when both the
    client id and the client secret are set. *)
Lemma defaultJAASCheck_spec (config : ControllerConfiguration) :
  defaultJAASCheck config = true <-> ClientID config <> "" /\ ClientSecret config <> "".
Proof.
  unfold defaultJAASCheck. rewrite andb_true_iff, !negb_true_iff.
  by rewrite !String.eqb_neq.
Qed.

(** ** Plans and tuples *)

Section conversions.
Import provider.
Context `{libs : Libraries}.

Lemma makeTuples_loop (baseTuple : RelationshipTuple) (idToTag : string -> string)
    (items : list string) (acc : list RelationshipTuple) :
  foldl (fun tuples item =>
           let t := baseTuple in
           let t := mkTuple (idToTag item) (Relation t) (TargetObject t) in
           tuples ++ [t])
        acc items
  = acc ++ map (fun item =>
                  mkTuple (idToTag item) (Relation baseTuple) (TargetObject baseTuple))
               items.
Proof.
  revert acc. induction items as [|item items IH]; intros acc; simpl.
  - by rewrite app_nil_r.
  - rewrite IH. by rewrite <- app_assoc.
Qed.

(** [makeTuples] gives one tuple per item: the base tuple with the item's
    tag as object. *)
Lemma makeTuples_map (baseTuple : RelationshipTuple) (items : list string)
    (idToTag : string -> string) :
  makeTuples baseTuple items idToTag
  = map (fun item =>
           mkTuple (idToTag item) (Relation baseTuple) (TargetObject baseTuple))
        items.
Proof. unfold makeTuples. by rewrite makeTuples_loop. Qed.

(** The batch [planToTuples] builds: users, then groups, then service
    accounts, one tuple each; users and service accounts carry user tags,
    groups carry group tags; the relation is the rendering of the plan's
    access; the target object is the empty string. *)
Lemma planToTuples_shape (targetTag : string) (plan : genericJAASAccessModel)
    (diag : Diagnostics) :
  planToTuples targetTag plan diag =
  if HasError diag then ([], diag)
  else
    let relation := StringValue_String (Access plan) in
    (map (fun s => mkTuple (NewUserTag_String s) relation "") (Users plan)
     ++ map (fun s => mkTuple ("group-" +:+ s) relation "") (Groups plan)
     ++ map (fun s => mkTuple (NewUserTag_String s) relation "") (ServiceAccounts plan),
     diag).
Proof.
  unfold planToTuples, ElementsAs. rewrite !Append_nil.
  destruct (HasError diag); [done|].
  rewrite !makeTuples_map. simpl. by rewrite <- app_assoc.
Qed.

Lemma planToTuples_diag (targetTag : string) (plan : genericJAASAccessModel)
    (diag : Diagnostics) :
  (planToTuples targetTag plan diag).2 = diag.
Proof. rewrite planToTuples_shape. by destruct (HasError diag). Qed.

Lemma planToTuples_length (targetTag : string) (plan : genericJAASAccessModel)
    (diag : Diagnostics) :
  HasError diag = false ->
  length (planToTuples targetTag plan diag).1
  = length (Users plan) + length (Groups plan) + length (ServiceAccounts plan).
Proof.
  intros Hd. rewrite planToTuples_shape, Hd. simpl.
  rewrite !length_app, !length_map. lia.
Qed.

(** The target tag handed to [planToTuples] reaches no tuple of the batch:
    it is stored in the base tuple's object, which [makeTuples] overwrites. *)
Lemma planToTuples_target_empty (targetTag : string) (plan : genericJAASAccessModel)
    (diag : Diagnostics) :
  Forall (fun t => TargetObject t = "") (planToTuples targetTag plan diag).1.
Proof.
  rewrite planToTuples_shape. destruct (HasError diag); simpl; [constructor|].
  rewrite !Forall_app, !Forall_map. repeat split; by apply Forall_true.
Qed.

(** A plan without subjects gives an empty batch. *)
Lemma planToTuples_empty (targetTag : string) (access ident : StringValue)
    (diag : Diagnostics) :
  (planToTuples targetTag (mkModel [] [] [] access ident) diag).1 = [].
Proof. rewrite planToTuples_shape. by destruct (HasError diag). Qed.

(** The loop of [tuplesToPlan], one accumulator at a time. *)
Lemma tuplesToPlan_loop (tuples : list RelationshipTuple) (a : acc) :
  let r := foldl tuplesToPlan_step a tuples in
  let tags := parsedTags tuples in
  accUsers r
    = accUsers a
      ++ (Id <$> filter (fun tag => Kind tag = UserTagKind
                                    /\ IsValidServiceAccountId (Id tag) = false) tags)
  /\ accGroups r
    = accGroups a ++ (Id <$> filter (fun tag => Kind tag = GroupTagKind) tags)
  /\ accServiceAccounts r
    = accServiceAccounts a
      ++ (Id <$> filter (fun tag => Kind tag = UserTagKind
                                    /\ IsValidServiceAccountId (Id tag) = true) tags)
  /\ HasError (accDiag r) = HasError (accDiag a) || existsb malformed tuples.
Proof.
  revert a. induction tuples as [|t tuples IH]; intros a.
  - simpl. rewrite !app_nil_r, orb_false_r. done.
  - simpl. specialize (IH (tuplesToPlan_step a t)).
    destruct IH as (IHu & IHg & IHs & IHd).
    rewrite IHu, IHg, IHs, IHd. clear IHu IHg IHs IHd.
    unfold tuplesToPlan_step, parsedTags, malformed. simpl.
    destruct (ParseTag (Object t)) as [tag|e]; simpl.
    + fold (parsedTags tuples). rewrite !filter_cons.
      destruct (String.eqb_spec (Kind tag) UserTagKind) as [Hu|Hu].
      * assert (Hg : Kind tag <> GroupTagKind) by (rewrite Hu; discriminate).
        destruct (IsValidServiceAccountId (Id tag)) eqn:Hsa; simpl;
          repeat case_decide; try (exfalso; intuition congruence);
          simpl; rewrite <- ?app_assoc; done.
      * destruct (String.eqb_spec (Kind tag) GroupTagKind) as [Hg|Hg]; simpl;
          repeat case_decide; try (exfalso; intuition congruence);
          simpl; rewrite <- ?app_assoc; done.
    + fold (parsedTags tuples). rewrite HasError_AddError. simpl.
      by rewrite orb_true_r.
Qed.

(** C4: [tuplesToPlan] sorts the objects it can parse by kind.  Groups
    receives the identifiers of the group tags; ServiceAccounts receives
    the identifiers of the user tags that match the service-account
    pattern; Users receives the identifiers of the other user tags; each in
    the order of the tuples.  Every user or group tag lands in one of the
    three sets and in no second one: together the sets hold as many
    identifiers as there are user and group tags. *)
Theorem tuplesToPlan_classifies (tuples : list RelationshipTuple) (diag : Diagnostics) :
  let plan := (tuplesToPlan tuples diag).1 in
  let tags := parsedTags tuples in
  Groups plan = Id <$> filter (fun tag => Kind tag = GroupTagKind) tags
  /\ ServiceAccounts plan
     = Id <$> filter (fun tag => Kind tag = UserTagKind
                                 /\ IsValidServiceAccountId (Id tag) = true) tags
  /\ Users plan
     = Id <$> filter (fun tag => Kind tag = UserTagKind
                                 /\ IsValidServiceAccountId (Id tag) = false) tags
  /\ length (Users plan) + length (Groups plan) + length (ServiceAccounts plan)
     = length (filter (fun tag => Kind tag = UserTagKind \/ Kind tag = GroupTagKind) tags).
Proof.
  simpl. unfold tuplesToPlan, NewSetValue. simpl.
  destruct (tuplesToPlan_loop tuples (mkAcc [] [] [] diag)) as (Hu & Hg & Hs & _).
  simpl in Hu, Hg, Hs. rewrite Hu, Hg, Hs. clear Hu Hg Hs.
  repeat split. rewrite !length_fmap.
  induction (parsedTags tuples) as [|tag tags IH]; [done|].
  rewrite !filter_cons.
  assert (Hkinds : UserTagKind <> GroupTagKind) by discriminate.
  destruct (IsValidServiceAccountId (Id tag)) eqn:Hsa;
    repeat case_decide; try (exfalso; intuition congruence); simpl; lia.
Qed.

(** What [tuplesToPlan] reports: an error is recorded exactly when the
    diagnostics already held one or some object is malformed. *)
Lemma tuplesToPlan_HasError (tuples : list RelationshipTuple) (diag : Diagnostics) :
  HasError (tuplesToPlan tuples diag).2 = HasError diag || existsb malformed tuples.
Proof.
  unfold tuplesToPlan, NewSetValue. simpl.
  by destruct (tuplesToPlan_loop tuples (mkAcc [] [] [] diag)) as (_ & _ & _ & Hd).
Qed.

End conversions.

(** The tags of the specification's round trip. *)
Example tuplesToPlan_round_trip :
  @provider.tuplesToPlan samples.libs
    [samples.readerTuple "user-alice@serviceaccount";
     samples.readerTuple "user-bob";
     samples.readerTuple "group-admins"] []
  = (provider.mkModel ["bob"] ["alice@serviceaccount"] ["admins"] StringNull StringNull, []).
Proof. reflexivity. Qed.

(** ** Create, update and read of the generic access resource *)

Section resources.
Import provider.
Context `{libs : Libraries} `{ctl : Controller}.

#[local] Arguments diffPlans : simpl never.
#[local] Arguments planToTuples : simpl never.
#[local] Arguments tuplesToPlan : simpl never.
#[local] Arguments Identity : simpl never.
#[local] Arguments AddTuples : simpl never.
#[local] Arguments DeleteTuples : simpl never.
#[local] Arguments ReadTuples : simpl never.
#[local] Arguments Append : simpl never.
#[local] Arguments AddError : simpl never.

(** [Create] contacts the controller for one add-tuples call at most; the
    batch is the one [planToTuples] builds from the whole plan, and none of
    its tuples names the target. *)
Lemma Create_single_call (a : genericJAASAccessResource) (reqPlan : Getter)
    (resp : Response) (w : World) :
  let '(resp', w') := Create a reqPlan resp w in
  sc w' = sc w /\
  (trace w' = trace w
   \/ trace w' = trace w ++ [CConnect ""]
   \/ exists targetID diag,
        let tuples := (planToTuples targetID (getModel reqPlan) diag).1 in
        HasError diag = false
        /\ trace w' = trace w ++ [CConnect ""; CAddRelation tuples; CClose]
        /\ length tuples
           = length (Users (getModel reqPlan)) + length (Groups (getModel reqPlan))
             + length (ServiceAccounts (getModel reqPlan))
        /\ Forall (fun t => TargetObject t = "") tuples).
Proof.
  unfold Create, mret, M_ret. destruct (client a); simpl; [|by auto].
  destruct (HasError (Append (RespDiagnostics resp) (getDiags reqPlan))); [by auto|].
  destruct (Identity (targetInfo a) reqPlan _) as [targetID d] eqn:Hid. simpl.
  destruct (HasError d) eqn:Hd; [by auto|].
  pose proof (planToTuples_diag targetID (getModel reqPlan) d) as Hpd.
  pose proof (planToTuples_length targetID (getModel reqPlan) d Hd) as Hlen.
  pose proof (planToTuples_target_empty targetID (getModel reqPlan) d) as Htgt.
  destruct (planToTuples targetID (getModel reqPlan) d) as [tuples d'] eqn:Hpt.
  simpl in *. subst d'. rewrite Hd.
  unfold mbind, M_bind. rewrite AddTuples_run.
  destruct (connect (trace w) ""); [by auto|].
  destruct (addRelation _ _); (split; [done|]);
    right; right; exists targetID, d; rewrite Hpt; simpl; auto.
Qed.

(** The events [Update] adds to the history, in full: nothing; a failed
    connection; the add call alone; the add call and a failed connection;
    or the add call followed by the remove call.  Whatever follows the add
    call is there only if that call returned no error.  The two batches are
    built from the two sides of [diffPlans]. *)
Lemma Update_trace (a : genericJAASAccessResource) (reqState reqPlan : Getter)
    (resp : Response) (w : World) :
  let '(resp', w') := Update a reqState reqPlan resp w in
  sc w' = sc w /\
  exists ext, trace w' = trace w ++ ext /\
  (ext = []
   \/ ext = [CConnect ""]
   \/ exists targetID d1 d2 diag,
        let '(toAdd, toRemove, _) :=
          diffPlans (getModel reqPlan) (getModel reqState) diag in
        let adds := (planToTuples targetID toAdd d1).1 in
        let removes := (planToTuples targetID toRemove d2).1 in
        let afterAdd := [CConnect ""; CAddRelation adds; CClose] in
        connect (trace w) "" = None /\
        (ext = afterAdd
         \/ addRelation (trace w ++ [CConnect ""]) adds = None
            /\ (ext = afterAdd ++ [CConnect ""]
                \/ connect (trace w ++ afterAdd) "" = None
                   /\ ext = afterAdd ++ [CConnect ""; CRemoveRelation removes; CClose]))).
Proof.
  unfold Update, mret, M_ret. destruct (client a); cbn [negb];
    [|split; [done|exists []; rewrite app_nil_r; auto]].
  unfold Get, withDiag. cbn [RespDiagnostics RespState].
  destruct (HasError (Append (RespDiagnostics resp) (getDiags reqState)));
    [split; [done|exists []; rewrite app_nil_r; auto]|].
  destruct (HasError (Append _ (getDiags reqPlan)));
    [split; [done|exists []; rewrite app_nil_r; auto]|].
  set (diag := Append (Append (RespDiagnostics resp) (getDiags reqState)) (getDiags reqPlan)).
  destruct (diffPlans (getModel reqPlan) (getModel reqState) diag)
    as [[toAdd toRemove] d] eqn:Hdiff.
  destruct (HasError d); [split; [done|exists []; rewrite app_nil_r; auto]|].
  destruct (Identity (targetInfo a) reqState d) as [targetID d0].
  destruct (HasError d0); [split; [done|exists []; rewrite app_nil_r; auto]|].
  destruct (planToTuples targetID toAdd d0) as [adds d1] eqn:Hadd.
  destruct (HasError d1); [split; [done|exists []; rewrite app_nil_r; auto]|].
  unfold mbind, M_bind. rewrite AddTuples_run.
  destruct (connect (trace w) "") as [e|] eqn:Hc1;
    [split; [done|exists [CConnect ""]; auto]|].
  destruct (addRelation (trace w ++ [CConnect ""]) adds) as [e|] eqn:Ha.
  { split; [done|]. eexists. split; [reflexivity|].
    right. right. exists targetID, d0, d0, diag. rewrite Hdiff, Hadd. cbn. auto. }
  destruct (planToTuples targetID toRemove d1) as [removes d2] eqn:Hrem.
  destruct (HasError d2).
  { split; [done|]. eexists. split; [reflexivity|].
    right. right. exists targetID, d0, d1, diag. rewrite Hdiff, Hadd. cbn. auto. }
  rewrite DeleteTuples_run. cbn [sc trace].
  destruct (connect (trace w ++ [CConnect ""; CAddRelation adds; CClose]) "")
    as [e|] eqn:Hc2.
  { split; [done|]. exists ([CConnect ""; CAddRelation adds; CClose] ++ [CConnect ""]).
    split; [by rewrite app_assoc|].
    right. right. exists targetID, d0, d1, diag. rewrite Hdiff, Hadd. cbn. auto. }
  rewrite <- !app_assoc.
  destruct (removeRelation _ _); (split; [done|]);
    (eexists; split; [reflexivity|]); right; right;
    exists targetID, d0, d1, diag; rewrite Hdiff, Hadd, Hrem; cbn; auto 10.
Qed.

(** C2: whatever the plan, the state and the controller's replies, every
    remove-tuples call [Update] issues comes after an add-tuples call that
    returned no error; the update issues no second add call and no second
    remove call, and a request that follows a successful connection first
    is the add call. *)
Theorem Update_add_before_remove (a : genericJAASAccessResource)
    (reqState reqPlan : Getter) (resp : Response) (w : World) :
  let '(_, w') := Update a reqState reqPlan resp w in
  exists ext, trace w' = trace w ++ ext /\
    (forall j removes, ext !! j = Some (CRemoveRelation removes) ->
       exists i adds,
         i < j /\ ext !! i = Some (CAddRelation adds)
         /\ addRelation (trace w ++ take i ext) adds = None)
    /\ addCalls ext <= 1 /\ removeCalls ext <= addCalls ext
    /\ (forall e, ext !! 1 = Some e -> isAddCall e = true).
Proof.
  pose proof (Update_trace a reqState reqPlan resp w) as Hshape.
  destruct (Update a reqState reqPlan resp w) as [resp' w'].
  destruct Hshape as (_ & ext & Hext & Hcases).
  exists ext. split; [done|].
  destruct Hcases as [->|[->|(targetID & d1 & d2 & diag & Hcases)]].
  - repeat split; [by intros j r ?|cbn; lia|cbn; lia|by intros e ?].
  - repeat split; [|cbn; lia|cbn; lia|by intros e ?].
    intros [|[|j]] r Hj; by simplify_eq/=.
  - destruct (diffPlans (getModel reqPlan) (getModel reqState) diag)
      as [[toAdd toRemove] d].
    cbn zeta in Hcases.
    destruct Hcases as (Hc & [->|(Ha & [->|(Hc2 & ->)])]).
    + repeat split; [|cbn; lia|cbn; lia|intros e He; by simplify_eq/=].
      intros [|[|[|j]]] r Hj; by simplify_eq/=.
    + repeat split; [|cbn; lia|cbn; lia|intros e He; by simplify_eq/=].
      intros [|[|[|[|j]]]] r Hj; by simplify_eq/=.
    + repeat split; [|cbn; lia|cbn; lia|intros e He; by simplify_eq/=].
      intros [|[|[|[|[|[|j]]]]]] r Hj; simplify_eq/=.
      exists 1, (planToTuples targetID toAdd d1).1.
      repeat split; [lia|done].
Qed.

Lemma sameSet_spec (a b : list string) :
  sameSet a b = true <-> forall x, x ∈ a <-> x ∈ b.
Proof.
  unfold sameSet. rewrite andb_true_iff, !forallb_forall.
  split.
  - intros [Hab Hba] x. split; intros Hx.
    + apply list_elem_of_In, Hab in Hx. by apply bool_decide_eq_true in Hx.
    + apply list_elem_of_In, Hba in Hx. by apply bool_decide_eq_true in Hx.
  - intros Hiff. split; intros x Hx; apply bool_decide_eq_true, Hiff;
      by apply list_elem_of_In.
Qed.

(** Equal subject sets leave nothing to add and nothing to remove. *)
Lemma diffSet_same (current desired : SetValue) (diag : Diagnostics) :
  (forall x, x ∈ current -> x ∈ desired) ->
  diffSet current desired diag = ([], diag).
Proof.
  intros Hsub. rewrite diffSet_filter.
  assert (Hnil : filter (fun x => x ∉ desired) current = []).
  { induction current as [|x current IH]; [done|].
    rewrite filter_cons. case_decide as Hx.
    - exfalso. apply Hx, Hsub. by left.
    - apply IH. intros y Hy. apply Hsub. by right. }
  by rewrite Hnil.
Qed.

Lemma diffPlans_same (plan state : genericJAASAccessModel) (diag : Diagnostics) :
  sameSubjects plan state = true ->
  diffPlans plan state diag
  = (mkModel [] [] [] StringNull StringNull, mkModel [] [] [] StringNull StringNull, diag).
Proof.
  unfold sameSubjects. rewrite !andb_true_iff, !sameSet_spec.
  intros [[Hu Hg] Hs]. unfold diffPlans.
  rewrite !diffSet_same; [done|intros x; apply Hs|intros x; apply Hg|intros x; apply Hu
                         |intros x; apply Hs|intros x; apply Hg|intros x; apply Hu].
Qed.

(** What [Update] sends when nothing is reported along the way: the add
    batch, and after a successful add the remove batch. *)
Lemma Update_run (a : genericJAASAccessResource) (reqState reqPlan : Getter)
    (resp : Response) (w : World) :
  client a = true ->
  getDiags reqState = [] ->
  getDiags reqPlan = [] ->
  HasError (Identity (targetInfo a) reqState (RespDiagnostics resp)).2 = false ->
  HasError (RespDiagnostics resp) = false ->
  let targetID := (Identity (targetInfo a) reqState (RespDiagnostics resp)).1 in
  let d := (Identity (targetInfo a) reqState (RespDiagnostics resp)).2 in
  let '(toAdd, toRemove, _) :=
    diffPlans (getModel reqPlan) (getModel reqState) (RespDiagnostics resp) in
  let adds := (planToTuples targetID toAdd d).1 in
  let removes := (planToTuples targetID toRemove d).1 in
  let afterAdd := [CConnect ""; CAddRelation adds; CClose] in
  trace (Update a reqState reqPlan resp w).2 =
  trace w ++
  match connect (trace w) "" with
  | Some _ => [CConnect ""]
  | None =>
      afterAdd ++
      match addRelation (trace w ++ [CConnect ""]) adds with
      | Some _ => []
      | None =>
          CConnect "" ::
          match connect (trace w ++ afterAdd) "" with
          | Some _ => []
          | None => [CRemoveRelation removes; CClose]
          end
      end
  end.
Proof.
  intros Hcl Hds Hdp Hid Hresp.
  pose proof (diffPlans_correct (getModel reqPlan) (getModel reqState)
                (RespDiagnostics resp)) as Hdiff.
  unfold Update, mret, M_ret. rewrite Hcl. cbn [negb].
  unfold Get, withDiag. cbn [RespDiagnostics RespState]. rewrite Hds, Hdp, !Append_nil, Hresp.
  destruct (diffPlans (getModel reqPlan) (getModel reqState) (RespDiagnostics resp))
    as [[toAdd toRemove] d]. destruct Hdiff as [-> _]. rewrite Hresp.
  destruct (Identity (targetInfo a) reqState (RespDiagnostics resp)) as [targetID d0].
  cbn [fst snd] in *. rewrite Hid.
  pose proof (planToTuples_diag targetID toAdd d0) as Hd1.
  destruct (planToTuples targetID toAdd d0) as [adds d1]. cbn [fst snd] in *. subst d1.
  rewrite Hid. unfold mbind, M_bind. rewrite AddTuples_run.
  destruct (connect (trace w) ""); [done|].
  destruct (addRelation (trace w ++ [CConnect ""]) adds).
  { done. }
  pose proof (planToTuples_diag targetID toRemove d0) as Hd2.
  destruct (planToTuples targetID toRemove d0) as [removes d2]. cbn [fst snd] in *. subst d2.
  rewrite Hid, DeleteTuples_run. cbn [sc trace].
  destruct (connect (trace w ++ [CConnect ""; CAddRelation adds; CClose]) "");
    [cbn; by rewrite <- !app_assoc|].
  destruct (removeRelation _ _); cbn; by rewrite <- !app_assoc.
Qed.

(** C5 as the code has it: when plan and state hold the same subjects in
    each of the three sets, both batches are empty, so no tuple is added
    and none is removed; the update still sends the add-tuples call and,
    after it succeeded, the remove-tuples call, each with the empty batch. *)
Theorem Update_same_subjects_empty_batches (a : genericJAASAccessResource)
    (reqState reqPlan : Getter) (resp : Response) (w : World) :
  sameSubjects (getModel reqPlan) (getModel reqState) = true ->
  client a = true ->
  getDiags reqState = [] ->
  getDiags reqPlan = [] ->
  HasError (Identity (targetInfo a) reqState (RespDiagnostics resp)).2 = false ->
  HasError (RespDiagnostics resp) = false ->
  trace (Update a reqState reqPlan resp w).2 =
  trace w ++
  match connect (trace w) "" with
  | Some _ => [CConnect ""]
  | None =>
      [CConnect ""; CAddRelation []; CClose] ++
      match addRelation (trace w ++ [CConnect ""]) [] with
      | Some _ => []
      | None =>
          CConnect "" ::
          match connect (trace w ++ [CConnect ""; CAddRelation []; CClose]) "" with
          | Some _ => []
          | None => [CRemoveRelation []; CClose]
          end
      end
  end.
Proof.
  intros Hsame Hcl Hds Hdp Hid Hresp.
  pose proof (Update_run a reqState reqPlan resp w Hcl Hds Hdp Hid Hresp) as Hrun.
  cbn zeta in Hrun. rewrite (diffPlans_same _ _ _ Hsame) in Hrun.
  by rewrite !planToTuples_empty in Hrun.
Qed.

(** What [Read] does once the listing is in: with a malformed object among
    the tuples it stops on the recorded error and leaves the state as it was. *)
Lemma Read_run (fuel : nat) (a : genericJAASAccessResource) (reqState : Getter)
    (resp : Response) (w w1 : World) (tuples : list RelationshipTuple) :
  client a = true ->
  let d0 := Append (RespDiagnostics resp) (getDiags reqState) in
  let targetID := (Identity (targetInfo a) reqState d0).1 in
  let d := (Identity (targetInfo a) reqState d0).2 in
  HasError d0 = false ->
  HasError d = false ->
  ReadTuples fuel
    (mkTuple "" (StringValue_String (Access (getModel reqState))) targetID) w
  = (Some (Ok tuples), w1) ->
  Read fuel a reqState resp w =
  let '(newState, d') := tuplesToPlan tuples d in
  if existsb malformed tuples
  then (Some (mkResponse d' (RespState resp)), w1)
  else (Some (mkResponse d'
                (Some (mkModel (Users newState) (ServiceAccounts newState)
                         (Groups newState) (Access (getModel reqState))
                         (ID (getModel reqState))))), w1).
Proof.
  intros Hcl d0 targetID d Hd0 Hd Hread.
  unfold Read, mret, M_ret. rewrite Hcl. cbn [negb].
  unfold Get, withDiag. cbn [RespDiagnostics RespState].
  fold d0. rewrite Hd0.
  subst targetID d. destruct (Identity (targetInfo a) reqState d0) as [targetID d].
  cbn [fst snd] in *. rewrite Hd.
  unfold mbind, M_bind. rewrite Hread.
  pose proof (tuplesToPlan_HasError tuples d) as Herr.
  destruct (tuplesToPlan tuples d) as [newState d']. cbn [fst snd] in *.
  rewrite Herr, Hd. cbn [orb].
  destruct (existsb malformed tuples); [done|].
  unfold State_Set. by rewrite Append_nil.
Qed.

(** C7 as the code has it: [tuplesToPlan] skips a tuple whose object cannot
    be parsed, records an error for it and still converts the tuples it can
    parse; [Read] then stops on that error: it returns the error among its
    diagnostics and does not write the converted sets to the state, which
    stays as it was before the read. *)
Theorem Read_malformed_tuple_fails (fuel : nat) (a : genericJAASAccessResource)
    (reqState : Getter) (resp : Response) (w w1 : World)
    (tuples : list RelationshipTuple) :
  client a = true ->
  let d0 := Append (RespDiagnostics resp) (getDiags reqState) in
  let targetID := (Identity (targetInfo a) reqState d0).1 in
  let d := (Identity (targetInfo a) reqState d0).2 in
  HasError d0 = false ->
  HasError d = false ->
  ReadTuples fuel
    (mkTuple "" (StringValue_String (Access (getModel reqState))) targetID) w
  = (Some (Ok tuples), w1) ->
  existsb malformed tuples = true ->
  let converted := (tuplesToPlan tuples d).1 in
  let tags := parsedTags tuples in
  (Groups converted = Id <$> filter (fun tag => Kind tag = GroupTagKind) tags
   /\ ServiceAccounts converted
      = Id <$> filter (fun tag => Kind tag = UserTagKind
                                  /\ IsValidServiceAccountId (Id tag) = true) tags
   /\ Users converted
      = Id <$> filter (fun tag => Kind tag = UserTagKind
                                  /\ IsValidServiceAccountId (Id tag) = false) tags)
  /\ exists resp',
      Read fuel a reqState resp w = (Some resp', w1)
      /\ HasError (RespDiagnostics resp') = true
      /\ RespState resp' = RespState resp.
Proof.
  intros Hcl d0 targetID d Hd0 Hd Hread Hbad converted tags.
  split.
  - subst converted tags. unfold tuplesToPlan, NewSetValue. cbn [fst snd].
    destruct (tuplesToPlan_loop tuples (mkAcc [] [] [] d)) as (Hu & Hg & Hs & _).
    cbn in Hu, Hg, Hs. by rewrite Hu, Hg, Hs.
  - rewrite (Read_run fuel a reqState resp w w1 tuples Hcl Hd0 Hd Hread).
    fold d0. fold d.
    pose proof (tuplesToPlan_HasError tuples d) as Herr.
    destruct (tuplesToPlan tuples d) as [newState d']. cbn [fst snd] in *.
    rewrite Hbad in *. exists (mkResponse d' (RespState resp)).
    split; [done|split; [|done]].
    change (HasError d' = true). rewrite Herr. apply orb_true_r.
Qed.

End resources.

(** ** The scenarios of the specification, run on the code *)

Section scenarios.
Import provider samples.

(** C6: the plan grants reader on model 1234 to alice and bob.  [Create]
    sends one add-tuples call with one tuple per user, the user tags as
    objects and the rendering of the plan's access as relation; the target
    tag, model-1234, is on neither tuple: the target object of both is the
    empty string. *)
Theorem Create_batch_lacks_target :
  @Create libs okController resource
    (getter (readerModel ["alice"; "bob"] [] [])) emptyResponse freshWorld
  = (mkResponse [] (Some (readerModel ["alice"; "bob"] [] [])),
     mkWorld (sc freshWorld)
       [CConnect "";
        CAddRelation
          [mkTuple "user-alice" (renderString (StringKnown "reader")) "";
           mkTuple "user-bob" (renderString (StringKnown "reader")) ""];
        CClose]).
Proof. reflexivity. Qed.

(** [getTuples] of the other access resource loses the target in the same
    way, and tags a service account as a group. *)
Example getTuples_batch :
  (@accessModel.getTuples libs "model"
     (accessModel.mkModel (StringKnown "1234") ["alice"] ["svc@serviceaccount"]
        ["admins"] (StringKnown "reader") StringNull) []).1.1
  = [mkTuple "user-alice" (renderString (StringKnown "reader")) "";
     mkTuple "group-admins" (renderString (StringKnown "reader")) "";
     mkTuple "group-svc@serviceaccount" (renderString (StringKnown "reader")) ""].
Proof. reflexivity. Qed.

(** The update of the specification's scenario, from alice and bob to bob
    and carol: carol is added first, alice is removed after. *)
Example Update_alice_bob_to_bob_carol :
  trace (@Update libs okController resource
           (getter (readerModel ["alice"; "bob"] [] []))
           (getter (readerModel ["bob"; "carol"] [] []))
           emptyResponse freshWorld).2
  = [CConnect "";
     CAddRelation [mkTuple "user-carol" (renderString StringNull) ""];
     CClose;
     CConnect "";
     CRemoveRelation [mkTuple "user-alice" (renderString StringNull) ""];
     CClose].
Proof. reflexivity. Qed.

(** C5, refuted as stated: plan and state both hold alice and bob, in a
    different order; the update still issues one add-tuples call and one
    remove-tuples call. *)
Lemma Update_same_subjects_still_calls :
  let state := readerModel ["alice"; "bob"] [] [] in
  let plan := readerModel ["bob"; "alice"] [] [] in
  let w' := (@Update libs okController resource (getter state) (getter plan)
               emptyResponse freshWorld).2 in
  sameSubjects plan state = true
  /\ addCalls (trace w') = 1
  /\ removeCalls (trace w') = 1.
Proof. repeat split. Qed.

(** The same update, through the theorem: both calls carry the empty batch. *)
Lemma Update_same_subjects_trace :
  trace (@Update libs okController resource
           (getter (readerModel ["alice"; "bob"] [] []))
           (getter (readerModel ["bob"; "alice"] [] []))
           emptyResponse freshWorld).2
  = [CConnect ""; CAddRelation []; CClose; CConnect ""; CRemoveRelation []; CClose].
Proof.
  exact (@Update_same_subjects_empty_batches libs okController resource
           (getter (readerModel ["alice"; "bob"] [] []))
           (getter (readerModel ["bob"; "alice"] [] []))
           emptyResponse freshWorld eq_refl eq_refl eq_refl eq_refl eq_refl eq_refl).
Defined.

(** C7, refuted as stated: the controller lists one malformed object next to
    a user and a group.  The read ends with the parse error among its
    diagnostics and the state still holds zed alone: bob and admins are not
    returned. *)
Lemma Read_one_malformed_tuple :
  (@Read libs (listingController oneMalformed) 5 resource (getter priorState)
     (mkResponse [] (Some priorState)) freshWorld).1
  = Some (mkResponse
            [mkDiagnostic SeverityError "failed to parse relation tag"
               "error parsing garbage:garbage is not a valid tag"]
            (Some priorState)).
Proof. reflexivity. Qed.

(** The same read, through the theorem. *)
Lemma Read_malformed_tuple_stops :
  exists resp',
    @Read libs (listingController oneMalformed) 5 resource (getter priorState)
      (mkResponse [] (Some priorState)) freshWorld
    = (Some resp',
       mkWorld (sc freshWorld)
         [CConnect "";
          CListRelationshipTuples
            (mkListRequest
               (mkTuple "" (renderString (StringKnown "reader"))
                  ("model-" +:+ renderString (StringKnown "1234"))) "");
          CClose])
    /\ HasError (RespDiagnostics resp') = true
    /\ RespState resp' = Some priorState.
Proof.
  exact (proj2 (@Read_malformed_tuple_fails libs (listingController oneMalformed)
                  5 resource (getter priorState) (mkResponse [] (Some priorState))
                  freshWorld _ oneMalformed
                  eq_refl eq_refl eq_refl eq_refl eq_refl)).
Defined.

(** Without a malformed object the same read returns bob and admins. *)
Example Read_well_formed :
  (@Read libs (listingController [readerTuple "user-bob"; readerTuple "group-admins"])
     5 resource (getter priorState) (mkResponse [] (Some priorState)) freshWorld).1
  = Some (mkResponse [] (Some (readerModel ["bob"] ["admins"] []))).
Proof. reflexivity. Qed.

End scenarios.

(** ** The single-execution guard under concurrent callers *)

Section guard.
Import once.

Lemma upd_eq (ts : nat -> pc) (i : nat) (p : pc) : upd ts i p i = p.
Proof. unfold upd. by rewrite Nat.eqb_refl. Qed.

Lemma upd_ne (ts : nat -> pc) (i j : nat) (p : pc) : j <> i -> upd ts i p j = ts j.
Proof. unfold upd. intros Hne. by destruct (Nat.eqb_spec j i). Qed.

Lemma inv_init : inv init.
Proof. split; simpl; try done; try lia. intros b Hb. by apply not_elem_of_nil in Hb. Qed.

(** Between the lock and the unlock there is the holder of the mutex and
    nobody else. *)
Lemma critical_unique (s : state) (i j : nat) :
  inv s -> critical (threads s i) = true -> critical (threads s j) = true -> j = i.
Proof.
  intros Hinv Hi Hj.
  apply (inv_mutex s Hinv) in Hi. apply (inv_mutex s Hinv) in Hj. congruence.
Qed.

Lemma running_critical (p : pc) : running p = true -> critical p = true.
Proof. by destruct p. Qed.

Lemma beforeProbe_critical (p : pc) : beforeProbe p = true -> critical p = true.
Proof. by destruct p. Qed.

(** The invariant at goroutine [k], and its global part, as hypotheses. *)
Ltac use_inv Hinv k :=
  pose proof (inv_mutex _ Hinv k);
  pose proof (inv_running _ Hinv k);
  pose proof (inv_after _ Hinv k);
  pose proof (inv_before _ Hinv k);
  pose proof (inv_locked _ Hinv k).

Ltac use_globals Hinv :=
  pose proof (inv_free _ Hinv);
  pose proof (inv_probes _ Hinv);
  pose proof (inv_fresh _ Hinv);
  pose proof (inv_results _ Hinv).

(** Feed the implications whose premises are at hand, then conclude. *)
Ltac crunch :=
  cbn in *;
  repeat match goal with
         | H : ?x = ?x -> _ |- _ => specialize (H eq_refl)
         | H : forall d, Locked ?d0 = Locked d -> _ |- _ => specialize (H d0 eq_refl)
         | H : ?a = ?b -> _, H' : ?a = ?b |- _ => specialize (H H')
         | Hr : results ?s = [], Hb : _ ∈ results ?s |- _ =>
             rewrite Hr in Hb; by apply not_elem_of_nil in Hb
         end;
  first [ done | congruence | lia | by eauto ].

Lemma inv_next (i : nat) (c : choice) (s s' : state) :
  inv s -> next i c s = Some s' -> inv s'.
Proof.
  intros Hinv Hnext. unfold next, setThread in Hnext.
  repeat case_match; simplify_eq;
    match goal with Hpc : threads s i = _ |- _ =>
      split; cbn [threads done mutex isJAAS probes results];
      [ intros j Hc | intros j Hc | intros j Hc | intros j Hc | intros j d Hc Hd
      | intros Hm Hd | | intros Hd | intros b Hb ];
      use_inv Hinv i; use_globals Hinv; rewrite Hpc in *
    end.
  all: try (destruct (decide (j = i)) as [->|Hne];
            [ rewrite upd_eq in Hc
            | rewrite (upd_ne _ _ _ _ Hne) in Hc; use_inv Hinv j;
              destruct (threads s j) eqn:Hj ]).
  all: try (rewrite elem_of_app, list_elem_of_singleton in Hb; destruct Hb as [Hb| ->]).
  all: crunch.
Qed.

Lemma inv_exec (s : state) (m : nat * choice) : inv s -> inv (exec s m).
Proof.
  intros Hinv. unfold exec.
  destruct (next m.1 m.2 s) as [s'|] eqn:Hnext; [|done].
  by eapply inv_next.
Qed.

Lemma inv_foldl (schedule : list (nat * choice)) (s : state) :
  inv s -> inv (foldl exec s schedule).
Proof.
  revert s. induction schedule as [|m schedule IH]; intros s Hinv; [done|].
  simpl. by apply IH, inv_exec.
Qed.

(** C10: under every schedule of goroutines calling [IsJAAS] on one client
    any number of times, one after another or interleaved, with any
    arguments and whatever the controller answers, the capability probe is
    issued at most once; no caller returns before the guarded check has
    completed; and all values returned so far are one and the same value,
    the one stored in the client. *)
Theorem IsJAAS_probes_once (schedule : list (nat * choice)) :
  let s := run schedule in
  probes s <= 1
  /\ (done s = false -> results s = [])
  /\ (forall b, b ∈ results s -> b = isJAAS s)
  /\ (forall b1 b2, b1 ∈ results s -> b2 ∈ results s -> b1 = b2).
Proof.
  pose proof (inv_foldl schedule init inv_init) as Hinv.
  fold (run schedule) in Hinv. cbn zeta.
  split; [apply (inv_probes _ Hinv)|].
  split; [apply (inv_fresh _ Hinv)|].
  split; [apply (inv_results _ Hinv)|].
  intros b1 b2 H1 H2.
  rewrite (inv_results _ Hinv b1 H1). by rewrite (inv_results _ Hinv b2 H2).
Qed.

(** A goroutine alone goes through the statements of [IsJAAS]: its first
    call returns what the sequential function returns against the same
    controller, and issues the probe when that one does. *)
Lemma firstCall_matches_IsJAAS (d connOk probeOk : bool) :
  let s := run (samples.firstCall 0 d connOk probeOk) in
  let '(b, w) := @IsJAAS (samples.flagController connOk probeOk) d samples.freshWorld in
  results s = [b]
  /\ isJAAS s = juju.isJAAS (sc w)
  /\ done s = checkJAASOnce (sc w)
  /\ probes s = length (List.filter (fun e => bool_decide (e = CListControllers)) (trace w))
  /\ threads s 0 = Idle.
Proof. by destruct d, connOk, probeOk. Qed.

(** Two overlapping first callers with different defaults, the probe
    succeeding: one probe, and both are told true. *)
Example overlapping_callers_agree :
  let s := run (samples.overlapping false true true) in
  probes s = 1 /\ results s = [true; true] /\ threads s 0 = Idle /\ threads s 1 = Idle.
Proof. repeat split. Qed.

(** The controller cannot be reached: the first caller gets its default,
    false; a later caller with default true still gets false, and the check
    is not run for it. *)
Example failed_check_is_not_repeated :
  let s := run (samples.solo 0 false false 9 ++ samples.solo 1 true false 3) in
  probes s = 0 /\ results s = [false; false] /\ done s = true.
Proof. repeat split. Qed.

(** The probe fails: the first caller gets its default, true, and so does
    everybody after it, whatever default they pass; the probe is not
    issued again. *)
Example failed_probe_is_not_repeated :
  let s := run (samples.failingProbe true false) in
  probes s = 1 /\ results s = [true; true; true].
Proof. repeat split. Qed.

(** Once the guard is closed the probe count and the stored value are final. *)
Lemma done_is_final (i : nat) (c : choice) (s s' : state) :
  inv s -> next i c s = Some s' -> done s = true ->
  done s' = true /\ probes s' = probes s /\ isJAAS s' = isJAAS s.
Proof.
  intros Hinv Hnext Hdone. unfold next, setThread in Hnext.
  use_inv Hinv i.
  repeat case_match; simplify_eq; cbn; try done; crunch.
Qed.

End guard.

(* ================================================================== *)
(** * Further properties of the code *)
(* ================================================================== *)

(** ** Differences of subject sets *)

Section more_diff.
Import provider.

(** [diffSet] keeps the order and the multiplicity of what it keeps: the
    result is a sublist of [current], no longer than it, and has no
    duplicates when [current] has none; it is [current] itself against an
    empty [desired] and empty against [current] itself. *)
Theorem diffSet_sublist (current desired : list string) (diag : Diagnostics) :
  let diff := (diffSet current desired diag).1 in
  sublist diff current
  /\ length diff <= length current
  /\ (NoDup current -> NoDup diff)
  /\ (diffSet current [] diag).1 = current
  /\ (diffSet current current diag).1 = [].
Proof.
  cbn zeta. rewrite !diffSet_filter. cbn [fst].
  assert (Hsub : sublist (filter (fun x => x ∉ desired) current) current)
    by apply sublist_filter.
  split; [done|]. split; [by apply sublist_length|].
  split; [intros Hnd; by eapply sublist_NoDup|].
  clear Hsub. split.
  - induction current as [|x current IH]; [done|].
    rewrite filter_cons. case_decide as Hx; [by rewrite IH|].
    by apply not_elem_of_nil in Hx.
  - assert (Hall : forall l : list string,
              (forall x, x ∈ l -> x ∈ current) ->
              filter (fun x => x ∉ current) l = []).
    { induction l as [|x l IH]; intros Hl; [done|].
      rewrite filter_cons. case_decide as Hx.
      - exfalso. apply Hx, Hl. by left.
      - apply IH. intros y Hy. apply Hl. by right. }
    by apply Hall.
Qed.

(** [diffPlans], element by element: a subject is on the add side exactly
    when the plan has it and the state has not, on the remove side exactly
    when the state has it and the plan has not, and never on both; the
    access and the ID of both sides are null, whatever plan and state hold. *)
Theorem diffPlans_members (plan state : genericJAASAccessModel) (diag : Diagnostics) :
  let '(toAdd, toRemove, _) := diffPlans plan state diag in
  (forall x,
     (x ∈ Users toAdd <-> x ∈ Users plan /\ x ∉ Users state)
     /\ (x ∈ Users toRemove <-> x ∈ Users state /\ x ∉ Users plan)
     /\ ~ (x ∈ Users toAdd /\ x ∈ Users toRemove))
  /\ (forall x,
     (x ∈ Groups toAdd <-> x ∈ Groups plan /\ x ∉ Groups state)
     /\ (x ∈ Groups toRemove <-> x ∈ Groups state /\ x ∉ Groups plan)
     /\ ~ (x ∈ Groups toAdd /\ x ∈ Groups toRemove))
  /\ (forall x,
     (x ∈ ServiceAccounts toAdd
        <-> x ∈ ServiceAccounts plan /\ x ∉ ServiceAccounts state)
     /\ (x ∈ ServiceAccounts toRemove
        <-> x ∈ ServiceAccounts state /\ x ∉ ServiceAccounts plan)
     /\ ~ (x ∈ ServiceAccounts toAdd /\ x ∈ ServiceAccounts toRemove))
  /\ Access toAdd = StringNull /\ ID toAdd = StringNull
  /\ Access toRemove = StringNull /\ ID toRemove = StringNull.
Proof.
  unfold diffPlans. rewrite !diffSet_filter. cbn.
  split; [|split; [|split; [|done]]]; intros x; rewrite !list_elem_of_filter; tauto.
Qed.

End more_diff.

(** ** Outcomes of create, update, delete and read *)

Section outcomes.
Import provider.
Context `{libs : Libraries} `{ctl : Controller}.

#[local] Arguments diffPlans : simpl never.
#[local] Arguments planToTuples : simpl never.
#[local] Arguments tuplesToPlan : simpl never.
#[local] Arguments Identity : simpl never.
#[local] Arguments Append : simpl never.
#[local] Arguments AddError : simpl never.

Lemma HasError_notConfigured (d : Diagnostics) (resource method : string) :
  HasError (addClientNotConfiguredError d resource method) = true.
Proof. apply HasError_AddError. Qed.

(** The events of the listing loop are list requests, and it leaves the
    shared client alone. *)
Lemma ReadTuples_loop_events (fuel : nat) :
  forall req acc w,
    let w' := (ReadTuples_loop fuel req acc w).2 in
    sc w' = sc w
    /\ exists ext, trace w' = trace w ++ ext
         /\ Forall (fun e => isSessionEvent e = false
                             /\ isAddCall e = false /\ isRemoveCall e = false) ext.
Proof.
  induction fuel as [|fuel IH]; intros req acc w.
  - cbn. split; [done|]. exists []. by rewrite app_nil_r.
  - cbn zeta. rewrite ReadTuples_loop_S. cbn zeta.
    assert (Hone : Forall (fun e => isSessionEvent e = false
                                    /\ isAddCall e = false /\ isRemoveCall e = false)
                     [CListRelationshipTuples req]) by (by repeat constructor).
    destruct (listRelationshipTuples (trace w) req) as [response|e];
      [|cbn; split; [done|by eexists]].
    destruct (Errors response); [|cbn; split; [done|by eexists]].
    destruct (String.eqb (RespContinuationToken response) "");
      [cbn; split; [done|by eexists]|].
    specialize (IH (mkListRequest (Tuple req) (RespContinuationToken response))
                   (acc ++ Tuples response)
                   (mkWorld (sc w) (trace w ++ [CListRelationshipTuples req]))).
    cbn zeta in IH. destruct IH as (Hsc & ext & Hext & Hall).
    split; [by rewrite Hsc|].
    exists (CListRelationshipTuples req :: ext). split.
    + rewrite Hext. cbn. by rewrite <- app_assoc.
    + constructor; [done|done].
Qed.

(** [ReadTuples] only reads: it opens one session, sends list requests and
    nothing else, and leaves the shared client alone. *)
Lemma ReadTuples_events (fuel : nat) (tuple : RelationshipTuple) (w : World) :
  let w' := (ReadTuples fuel tuple w).2 in
  sc w' = sc w
  /\ exists ext, trace w' = trace w ++ ext
       /\ oneSession (trace w) ext
       /\ Forall (fun e => isAddCall e = false /\ isRemoveCall e = false) ext.
Proof.
  cbn zeta. unfold ReadTuples, mbind, M_bind, oneSession.
  rewrite GetConnection_nil_run.
  destruct (connect (trace w) "") as [e|].
  - cbn. split; [done|]. eexists. split; [done|]. split; [done|].
    by repeat constructor.
  - pose proof (ReadTuples_loop_events fuel (mkListRequest tuple "") []
                  (mkWorld (sc w) (trace w ++ [CConnect ""]))) as Hloop.
    cbn zeta in Hloop.
    destruct (ReadTuples_loop fuel (mkListRequest tuple "") []
                (mkWorld (sc w) (trace w ++ [CConnect ""]))) as [r w1].
    cbn in Hloop. destruct Hloop as (Hsc & ext & Hext & Hall).
    unfold Close, emit, mret, M_ret. cbn. split; [done|].
    exists (CConnect "" :: ext ++ [CClose]). split.
    + rewrite Hext. rewrite <- !app_assoc. done.
    + split.
      * exists ext. split; [done|]. eapply Forall_impl; [exact Hall|]. by intros e [? _].
      * constructor; [done|]. apply Forall_app. split.
        -- eapply Forall_impl; [exact Hall|]. by intros e (_ & ? & ?).
        -- by repeat constructor.
Qed.

(** [Create] either succeeds, and then it has sent the batch in one
    add-tuples call that the controller accepted and has set the state to
    the plan without recording an error; or it records an error and leaves
    the state as it was.  It never sends a remove-tuples call. *)
Theorem Create_outcome (a : genericJAASAccessResource) (reqPlan : Getter)
    (resp : Response) (w : World) :
  let '(resp', w') := Create a reqPlan resp w in
  exists ext, trace w' = trace w ++ ext /\ removeCalls ext = 0 /\ addCalls ext <= 1 /\
  ((HasError (RespDiagnostics resp') = false
    /\ RespState resp' = Some (getModel reqPlan)
    /\ exists tuples,
         ext = [CConnect ""; CAddRelation tuples; CClose]
         /\ addRelation (trace w ++ [CConnect ""]) tuples = None)
   \/ (HasError (RespDiagnostics resp') = true /\ RespState resp' = RespState resp)).
Proof.
  unfold Create, mret, M_ret. destruct (client a); cbn [negb].
  2: { exists []. rewrite app_nil_r. repeat split; [cbn; lia|].
       right. split; [apply HasError_notConfigured|done]. }
  unfold Get, withDiag. cbn [RespDiagnostics RespState].
  destruct (HasError (Append (RespDiagnostics resp) (getDiags reqPlan))) eqn:H1.
  { exists []. rewrite app_nil_r. repeat split; [cbn; lia|]. by right. }
  destruct (Identity (targetInfo a) reqPlan _) as [targetID d].
  destruct (HasError d) eqn:H2.
  { exists []. rewrite app_nil_r. repeat split; [cbn; lia|]. by right. }
  pose proof (planToTuples_diag targetID (getModel reqPlan) d) as Hpd.
  destruct (planToTuples targetID (getModel reqPlan) d) as [tuples d'].
  cbn [fst snd] in Hpd. subst d'. rewrite H2.
  unfold mbind, M_bind. rewrite AddTuples_run.
  destruct (connect (trace w) "") as [e|].
  { exists [CConnect ""]. repeat split; [cbn; lia|].
    right. split; [apply HasError_AddError|done]. }
  destruct (addRelation (trace w ++ [CConnect ""]) tuples) as [e|] eqn:Ha;
    (eexists; split; [reflexivity|]); (split; [done|]); (split; [cbn; lia|]).
  - right. split; [apply HasError_AddError|done].
  - left. unfold State_Set. cbn. rewrite Append_nil. repeat split; [done|].
    by exists tuples.
Qed.

(** [Delete] sends at most one remove-tuples call and never an add-tuples
    call, and it never writes the state; it ends without an error exactly
    when the controller accepted the removal of the batch built from the
    whole state, one tuple per subject. *)
Theorem Delete_outcome (a : genericJAASAccessResource) (reqState : Getter)
    (resp : Response) (w : World) :
  let '(resp', w') := Delete a reqState resp w in
  RespState resp' = RespState resp /\
  exists ext, trace w' = trace w ++ ext /\ addCalls ext = 0 /\ removeCalls ext <= 1 /\
  ((HasError (RespDiagnostics resp') = false
    /\ exists tuples,
         ext = [CConnect ""; CRemoveRelation tuples; CClose]
         /\ removeRelation (trace w ++ [CConnect ""]) tuples = None
         /\ length tuples
            = length (Users (getModel reqState)) + length (Groups (getModel reqState))
              + length (ServiceAccounts (getModel reqState)))
   \/ HasError (RespDiagnostics resp') = true).
Proof.
  unfold Delete, mret, M_ret. destruct (client a); cbn [negb].
  2: { split; [done|]. exists []. rewrite app_nil_r. repeat split; [cbn; lia|].
       right. apply HasError_notConfigured. }
  unfold Get, withDiag. cbn [RespDiagnostics RespState].
  destruct (HasError (Append (RespDiagnostics resp) (getDiags reqState))) eqn:H1.
  { split; [done|]. exists []. rewrite app_nil_r. repeat split; [cbn; lia|]. by right. }
  destruct (Identity (targetInfo a) reqState _) as [targetID d].
  destruct (HasError d) eqn:H2.
  { split; [done|]. exists []. rewrite app_nil_r. repeat split; [cbn; lia|]. by right. }
  pose proof (planToTuples_diag targetID (getModel reqState) d) as Hpd.
  pose proof (planToTuples_length targetID (getModel reqState) d H2) as Hlen.
  destruct (planToTuples targetID (getModel reqState) d) as [tuples d'].
  cbn [fst snd] in Hpd, Hlen. subst d'. rewrite H2.
  unfold mbind, M_bind. rewrite DeleteTuples_run.
  destruct (connect (trace w) "") as [e|].
  { split; [done|]. exists [CConnect ""]. repeat split; [cbn; lia|].
    right. apply HasError_AddError. }
  destruct (removeRelation (trace w ++ [CConnect ""]) tuples) as [e|] eqn:Hr;
    (split; [done|]); (eexists; split; [reflexivity|]);
    (split; [done|]); (split; [cbn; lia|]).
  - right. apply HasError_AddError.
  - left. split; [done|]. by exists tuples.
Qed.

(** [Update] either succeeds, and then the controller has accepted first the
    add-tuples call and then the remove-tuples call and the state is the
    plan, with no error recorded; or it records an error and leaves the
    state as it was, also when the add-tuples call had already been
    accepted. *)
Theorem Update_outcome (a : genericJAASAccessResource) (reqState reqPlan : Getter)
    (resp : Response) (w : World) :
  let '(resp', w') := Update a reqState reqPlan resp w in
  (HasError (RespDiagnostics resp') = false
   /\ RespState resp' = Some (getModel reqPlan)
   /\ exists adds removes,
        trace w' = trace w ++ [CConnect ""; CAddRelation adds; CClose;
                               CConnect ""; CRemoveRelation removes; CClose]
        /\ addRelation (trace w ++ [CConnect ""]) adds = None
        /\ removeRelation
             (trace w ++ [CConnect ""; CAddRelation adds; CClose; CConnect ""])
             removes = None)
  \/ (HasError (RespDiagnostics resp') = true /\ RespState resp' = RespState resp).
Proof.
  unfold Update, mret, M_ret. destruct (client a); cbn [negb];
    [|right; split; [apply HasError_notConfigured|done]].
  unfold Get, withDiag. cbn [RespDiagnostics RespState].
  destruct (HasError (Append (RespDiagnostics resp) (getDiags reqState))) eqn:H1;
    [by right|].
  destruct (HasError (Append _ (getDiags reqPlan))) eqn:H2; [by right|].
  destruct (diffPlans (getModel reqPlan) (getModel reqState) _)
    as [[toAdd toRemove] d].
  destruct (HasError d) eqn:H3; [by right|].
  destruct (Identity (targetInfo a) reqState d) as [targetID d0].
  destruct (HasError d0) eqn:H4; [by right|].
  pose proof (planToTuples_diag targetID toAdd d0) as Hd1.
  destruct (planToTuples targetID toAdd d0) as [adds d1].
  cbn [fst snd] in Hd1. subst d1. rewrite H4.
  unfold mbind, M_bind. rewrite AddTuples_run.
  destruct (connect (trace w) "") as [e|];
    [right; split; [apply HasError_AddError|done]|].
  destruct (addRelation (trace w ++ [CConnect ""]) adds) as [e|] eqn:Ha;
    [right; split; [apply HasError_AddError|done]|].
  pose proof (planToTuples_diag targetID toRemove d0) as Hd2.
  destruct (planToTuples targetID toRemove d0) as [removes d2].
  cbn [fst snd] in Hd2. subst d2. rewrite H4.
  rewrite DeleteTuples_run. cbn [sc trace].
  destruct (connect (trace w ++ [CConnect ""; CAddRelation adds; CClose]) "") as [e|];
    [right; split; [apply HasError_AddError|done]|].
  rewrite <- !app_assoc. cbn [app].
  destruct (removeRelation _ removes) as [e|] eqn:Hr;
    [right; split; [apply HasError_AddError|done]|].
  left. unfold State_Set. cbn. rewrite Append_nil.
  split; [done|]. split; [done|]. by exists adds, removes.
Qed.

(** A refused removal after an accepted addition: the controller now holds
    the added tuples, the update reports an error, and the state is not
    written, so it still describes the grant before the update. *)
Theorem Update_refused_removal_keeps_state (a : genericJAASAccessResource)
    (reqState reqPlan : Getter) (resp : Response) (w : World) (e : error) :
  client a = true ->
  getDiags reqState = [] ->
  getDiags reqPlan = [] ->
  HasError (Identity (targetInfo a) reqState (RespDiagnostics resp)).2 = false ->
  HasError (RespDiagnostics resp) = false ->
  (forall h, connect h "" = None) ->
  (forall h tuples, addRelation h tuples = None) ->
  (forall h tuples, removeRelation h tuples = Some e) ->
  let '(resp', w') := Update a reqState reqPlan resp w in
  HasError (RespDiagnostics resp') = true
  /\ RespState resp' = RespState resp
  /\ addCalls (drop (length (trace w)) (trace w')) = 1
  /\ removeCalls (drop (length (trace w)) (trace w')) = 1.
Proof.
  intros Hcl Hds Hdp Hid Hresp Hconn Hadd Hrem.
  pose proof (diffPlans_correct (getModel reqPlan) (getModel reqState)
                (RespDiagnostics resp)) as Hdiff.
  unfold Update, mret, M_ret. rewrite Hcl. cbn [negb].
  unfold Get, withDiag. cbn [RespDiagnostics RespState].
  rewrite Hds, Hdp, !Append_nil, Hresp.
  destruct (diffPlans (getModel reqPlan) (getModel reqState) (RespDiagnostics resp))
    as [[toAdd toRemove] d]. destruct Hdiff as [-> _]. rewrite Hresp.
  destruct (Identity (targetInfo a) reqState (RespDiagnostics resp)) as [targetID d0].
  cbn [fst snd] in Hid. rewrite Hid.
  pose proof (planToTuples_diag targetID toAdd d0) as Hd1.
  destruct (planToTuples targetID toAdd d0) as [adds d1]. cbn [fst snd] in Hd1. subst d1.
  rewrite Hid. unfold mbind, M_bind. rewrite AddTuples_run, Hconn, Hadd.
  pose proof (planToTuples_diag targetID toRemove d0) as Hd2.
  destruct (planToTuples targetID toRemove d0) as [removes d2].
  cbn [fst snd] in Hd2. subst d2. rewrite Hid.
  rewrite DeleteTuples_run, Hconn, Hrem. cbn [sc trace RespDiagnostics RespState].
  split; [apply HasError_AddError|]. split; [done|].
  rewrite <- !app_assoc, drop_app_length. done.
Qed.

End outcomes.

(** The update from alice and bob to bob and carol against a controller that
    accepts additions and refuses removals: carol is added, alice stays, and
    the state still says alice and bob. *)
Lemma Update_refused_removal_sample :
  let '(resp', w') :=
    @provider.Update samples.libs samples.keepingController samples.resource
      (samples.getter (samples.readerModel ["alice"; "bob"] [] []))
      (samples.getter (samples.readerModel ["bob"; "carol"] [] []))
      (provider.mkResponse [] (Some (samples.readerModel ["alice"; "bob"] [] [])))
      samples.freshWorld in
  HasError (provider.RespDiagnostics resp') = true
  /\ provider.RespState resp' = Some (samples.readerModel ["alice"; "bob"] [] [])
  /\ addCalls (drop 0 (trace w')) = 1
  /\ removeCalls (drop 0 (trace w')) = 1.
Proof.
  exact (@Update_refused_removal_keeps_state samples.libs samples.keepingController
           samples.resource
           (samples.getter (samples.readerModel ["alice"; "bob"] [] []))
           (samples.getter (samples.readerModel ["bob"; "carol"] [] []))
           (provider.mkResponse [] (Some (samples.readerModel ["alice"; "bob"] [] [])))
           samples.freshWorld "removal refused"
           eq_refl eq_refl eq_refl eq_refl eq_refl
           (fun _ => eq_refl) (fun _ _ => eq_refl) (fun _ _ => eq_refl)).
Defined.

(** ** Reading, sessions and unconfigured resources *)

Section reading.
Import provider.
Context `{libs : Libraries} `{ctl : Controller}.

#[local] Arguments planToTuples : simpl never.
#[local] Arguments tuplesToPlan : simpl never.
#[local] Arguments Identity : simpl never.
#[local] Arguments ReadTuples : simpl never.
#[local] Arguments Append : simpl never.
#[local] Arguments AddError : simpl never.

Lemma no_tuple_calls (ext : list Event) :
  Forall (fun e => isAddCall e = false /\ isRemoveCall e = false) ext ->
  addCalls ext = 0 /\ removeCalls ext = 0.
Proof.
  unfold addCalls, removeCalls.
  induction 1 as [|e ext [Ha Hr] _ IH]; [done|].
  cbn. by rewrite Ha, Hr.
Qed.

(** [Read] never changes anything: whatever it is given and however it
    ends, it sends no add-tuples and no remove-tuples call and leaves the
    shared client, with its cache and its capability flag, as it was. *)
Theorem Read_only_reads (fuel : nat) (a : genericJAASAccessResource)
    (reqState : Getter) (resp : Response) (w : World) :
  let w' := (Read fuel a reqState resp w).2 in
  sc w' = sc w
  /\ exists ext, trace w' = trace w ++ ext /\ addCalls ext = 0 /\ removeCalls ext = 0.
Proof.
  cbn zeta. unfold Read, mret, M_ret.
  assert (Hnil : sc w = sc w /\ exists ext,
             trace w = trace w ++ ext /\ addCalls ext = 0 /\ removeCalls ext = 0).
  { split; [done|]. exists []. by rewrite app_nil_r. }
  destruct (client a); cbn [negb]; [|done].
  unfold Get, withDiag. cbn [RespDiagnostics RespState].
  destruct (HasError (Append (RespDiagnostics resp) (getDiags reqState))); [done|].
  destruct (Identity (targetInfo a) reqState _) as [targetID d].
  destruct (HasError d); [done|].
  unfold mbind, M_bind.
  pose proof (ReadTuples_events fuel
                (mkTuple "" (StringValue_String (Access (getModel reqState))) targetID) w)
    as Hev.
  cbn zeta in Hev.
  destruct (ReadTuples fuel _ w) as [r w1]. cbn [snd] in Hev.
  destruct Hev as (Hsc & ext & Hext & _ & Hall).
  apply no_tuple_calls in Hall.
  assert (Hgoal : sc w1 = sc w /\ exists ext,
             trace w1 = trace w ++ ext /\ addCalls ext = 0 /\ removeCalls ext = 0)
    by (split; [done|by exists ext]).
  destruct r as [[tuples|e]|]; [|done|done].
  destruct (tuplesToPlan tuples d) as [newState d'].
  by destruct (HasError d').
Qed.

(** A read whose listing holds no malformed object writes the state: users,
    groups and service accounts are replaced by what the listing says, the
    access and the ID are the ones the state had, and no error is recorded. *)
Theorem Read_success (fuel : nat) (a : genericJAASAccessResource)
    (reqState : Getter) (resp : Response) (w w1 : World)
    (tuples : list RelationshipTuple) :
  client a = true ->
  let d0 := Append (RespDiagnostics resp) (getDiags reqState) in
  let targetID := (Identity (targetInfo a) reqState d0).1 in
  let d := (Identity (targetInfo a) reqState d0).2 in
  HasError d0 = false ->
  HasError d = false ->
  ReadTuples fuel
    (mkTuple "" (StringValue_String (Access (getModel reqState))) targetID) w
  = (Some (Ok tuples), w1) ->
  existsb malformed tuples = false ->
  let tags := parsedTags tuples in
  exists resp',
    Read fuel a reqState resp w = (Some resp', w1)
    /\ HasError (RespDiagnostics resp') = false
    /\ RespState resp'
       = Some (mkModel
                 (Id <$> filter (fun tag => Kind tag = UserTagKind
                                  /\ IsValidServiceAccountId (Id tag) = false) tags)
                 (Id <$> filter (fun tag => Kind tag = UserTagKind
                                  /\ IsValidServiceAccountId (Id tag) = true) tags)
                 (Id <$> filter (fun tag => Kind tag = GroupTagKind) tags)
                 (Access (getModel reqState)) (ID (getModel reqState))).
Proof.
  intros Hcl d0 targetID d Hd0 Hd Hread Hgood tags.
  rewrite (Read_run fuel a reqState resp w w1 tuples Hcl Hd0 Hd Hread).
  fold d0. fold d.
  pose proof (tuplesToPlan_HasError tuples d) as Herr.
  assert (Hsets : let plan := (tuplesToPlan tuples d).1 in
            Users plan = Id <$> filter (fun tag => Kind tag = UserTagKind
                                 /\ IsValidServiceAccountId (Id tag) = false) tags
            /\ ServiceAccounts plan = Id <$> filter (fun tag => Kind tag = UserTagKind
                                 /\ IsValidServiceAccountId (Id tag) = true) tags
            /\ Groups plan = Id <$> filter (fun tag => Kind tag = GroupTagKind) tags).
  { unfold tuplesToPlan, NewSetValue. cbn [fst snd].
    destruct (tuplesToPlan_loop tuples (mkAcc [] [] [] d)) as (Hu & Hg & Hs & _).
    cbn in Hu, Hg, Hs. by rewrite Hu, Hg, Hs. }
  destruct (tuplesToPlan tuples d) as [newState d']. cbn [fst snd] in *.
  rewrite Hgood in *. rewrite Hd in Herr. cbn in Herr.
  destruct Hsets as (-> & -> & ->).
  eexists. split; [reflexivity|]. by split.
Qed.

(** Every operation of the JAAS client and the cache refill hold one scoped
    session: when the connection fails nothing else is sent, and when it is
    made it is closed, once, after the last request, however the requests
    end.  The capability check does the same the first time it runs. *)
Theorem sessions_are_released (w : World) :
  (forall tuples, exists ext,
     trace (AddTuples tuples w).2 = trace w ++ ext /\ oneSession (trace w) ext)
  /\ (forall tuples, exists ext,
     trace (DeleteTuples tuples w).2 = trace w ++ ext /\ oneSession (trace w) ext)
  /\ (forall fuel tuple, exists ext,
     trace (ReadTuples fuel tuple w).2 = trace w ++ ext /\ oneSession (trace w) ext)
  /\ (exists ext,
     trace (fillModelCache w).2 = trace w ++ ext /\ oneSession (trace w) ext)
  /\ (checkJAASOnce (sc w) = false -> forall defaultVal, exists ext,
     trace (IsJAAS defaultVal w).2 = trace w ++ ext /\ oneSession (trace w) ext).
Proof.
  unfold oneSession. repeat split.
  - intros tuples. rewrite AddTuples_run.
    destruct (connect (trace w) ""); [by eexists|].
    eexists. split; [reflexivity|]. exists [CAddRelation tuples].
    split; [done|by repeat constructor].
  - intros tuples. rewrite DeleteTuples_run.
    destruct (connect (trace w) ""); [by eexists|].
    eexists. split; [reflexivity|]. exists [CRemoveRelation tuples].
    split; [done|by repeat constructor].
  - intros fuel tuple.
    destruct (ReadTuples_events fuel tuple w) as (_ & ext & Hext & Hone & _).
    by exists ext.
  - rewrite fillModelCache_run.
    destruct (connect (trace w) ""); [by eexists|].
    destruct (listModelSummaries (trace w ++ [CConnect ""])).
    + eexists. split; [reflexivity|]. exists [CListModelSummaries; CacheFill].
      split; [done|by repeat constructor].
    + eexists. split; [reflexivity|]. exists [CListModelSummaries].
      split; [done|by repeat constructor].
  - intros Hfresh defaultVal. rewrite IsJAAS_first_run by done. cbn zeta.
    destruct (connect (trace w) ""); [by eexists|].
    destruct (listControllers (trace w ++ [CConnect ""]));
      (eexists; split; [reflexivity|]); exists [CListControllers];
      (split; [done|by repeat constructor]).
Qed.

(** A resource that was never handed a client (it was not configured, or
    was configured with nothing or with a value of another type) fails fast:
    create, read, update and delete each record an error, send nothing to
    the controller and leave the state as it was. *)
Theorem unconfigured_resource_sends_nothing (a : genericJAASAccessResource)
    (data : ProviderData) (diag : Diagnostics) :
  client a = false ->
  data <> DataClient ->
  let a' := (Configure a data diag).1 in
  forall fuel g g' resp w,
    (exists r, Create a' g resp w = (r, w)
               /\ HasError (RespDiagnostics r) = true /\ RespState r = RespState resp)
    /\ (exists r, Read fuel a' g resp w = (Some r, w)
               /\ HasError (RespDiagnostics r) = true /\ RespState r = RespState resp)
    /\ (exists r, Update a' g g' resp w = (r, w)
               /\ HasError (RespDiagnostics r) = true /\ RespState r = RespState resp)
    /\ (exists r, Delete a' g resp w = (r, w)
               /\ HasError (RespDiagnostics r) = true /\ RespState r = RespState resp).
Proof.
  intros Hcl Hdata a' fuel g g' resp w.
  assert (Ha' : client a' = false).
  { subst a'. by destruct data. }
  unfold Create, Read, Update, Delete, mret, M_ret. rewrite Ha'. cbn [negb].
  repeat split; eexists; (split; [reflexivity|]);
    (split; [apply HasError_notConfigured|done]).
Qed.

(** [tuplesToPlan] looks at the objects of the tuples only: two listings
    with the same objects, whatever their relations and targets, give the
    same sets and the same diagnostics. *)
Theorem tuplesToPlan_objects_only (tuples tuples' : list RelationshipTuple)
    (diag : Diagnostics) :
  map Object tuples = map Object tuples' ->
  tuplesToPlan tuples diag = tuplesToPlan tuples' diag.
Proof.
  intros Hobj. unfold tuplesToPlan.
  assert (Hfold : forall a,
            foldl tuplesToPlan_step a tuples = foldl tuplesToPlan_step a tuples').
  { revert tuples' Hobj.
    induction tuples as [|t tuples IH]; intros [|t' tuples'] Hobj a;
      try done.
    cbn in Hobj. injection Hobj as Ht Hrest. cbn [foldl].
    assert (Hstep : tuplesToPlan_step a t = tuplesToPlan_step a t')
      by (unfold tuplesToPlan_step; by rewrite Ht).
    rewrite Hstep. by apply IH. }
  by rewrite Hfold.
Qed.

End reading.

(** A resource configured with nothing, asked to create, read, update and
    delete the grant of alice and bob. *)
Lemma unconfigured_resource_sample :
  let a := provider.mkResource false (@provider.modelInfo samples.libs) in
  let g := samples.getter (samples.readerModel ["alice"; "bob"] [] []) in
  let g' := samples.getter (samples.readerModel ["bob"; "carol"] [] []) in
  let resp := provider.mkResponse [] (Some (samples.readerModel ["alice"; "bob"] [] [])) in
  let w := samples.freshWorld in
  (exists r, @provider.Create samples.libs samples.okController a g resp w = (r, w)
             /\ HasError (provider.RespDiagnostics r) = true
             /\ provider.RespState r = provider.RespState resp)
  /\ (exists r, @provider.Read samples.libs samples.okController 5 a g resp w = (Some r, w)
             /\ HasError (provider.RespDiagnostics r) = true
             /\ provider.RespState r = provider.RespState resp)
  /\ (exists r, @provider.Update samples.libs samples.okController a g g' resp w = (r, w)
             /\ HasError (provider.RespDiagnostics r) = true
             /\ provider.RespState r = provider.RespState resp)
  /\ (exists r, @provider.Delete samples.libs samples.okController a g resp w = (r, w)
             /\ HasError (provider.RespDiagnostics r) = true
             /\ provider.RespState r = provider.RespState resp).
Proof.
  exact (@unconfigured_resource_sends_nothing samples.libs samples.okController
           (provider.mkResource false (@provider.modelInfo samples.libs))
           provider.DataNil [] eq_refl ltac:(discriminate)
           5
           (samples.getter (samples.readerModel ["alice"; "bob"] [] []))
           (samples.getter (samples.readerModel ["bob"; "carol"] [] []))
           (provider.mkResponse [] (Some (samples.readerModel ["alice"; "bob"] [] [])))
           samples.freshWorld).
Defined.

(** The read of bob and admins, through the theorem. *)
Lemma Read_success_sample :
  exists resp',
    @provider.Read samples.libs
      (samples.listingController
         [samples.readerTuple "user-bob"; samples.readerTuple "group-admins"])
      5 samples.resource (samples.getter samples.priorState)
      (provider.mkResponse [] (Some samples.priorState)) samples.freshWorld
    = (Some resp',
       mkWorld (sc samples.freshWorld)
         [CConnect "";
          CListRelationshipTuples
            (mkListRequest
               (mkTuple "" (samples.renderString (StringKnown "reader"))
                  ("model-" +:+ samples.renderString (StringKnown "1234"))) "");
          CClose])
    /\ HasError (provider.RespDiagnostics resp') = false
    /\ provider.RespState resp' = Some (samples.readerModel ["bob"] ["admins"] []).
Proof.
  exact (@Read_success samples.libs
           (samples.listingController
              [samples.readerTuple "user-bob"; samples.readerTuple "group-admins"])
           5 samples.resource (samples.getter samples.priorState)
           (provider.mkResponse [] (Some samples.priorState)) samples.freshWorld _
           [samples.readerTuple "user-bob"; samples.readerTuple "group-admins"]
           eq_refl eq_refl eq_refl eq_refl eq_refl).
Defined.

(** Two listings of the same objects under different relations and targets. *)
Lemma tuplesToPlan_objects_only_sample :
  @provider.tuplesToPlan samples.libs
    [mkTuple "user-bob" "reader" "model-1234"; mkTuple "group-admins" "reader" "model-1234"] []
  = @provider.tuplesToPlan samples.libs
      [mkTuple "user-bob" "writer" "cloud-aws"; mkTuple "group-admins" "" ""] [].
Proof.
  exact (@tuplesToPlan_objects_only samples.libs
           [mkTuple "user-bob" "reader" "model-1234";
            mkTuple "group-admins" "reader" "model-1234"]
           [mkTuple "user-bob" "writer" "cloud-aws"; mkTuple "group-admins" "" ""]
           [] eq_refl).
Defined.

(** ** From a plan to tuples and back *)

Section round_trip.
Import provider.
Context `{libs : Libraries}.

#[local] Arguments Append : simpl never.

Lemma parsedTags_app (t1 t2 : list RelationshipTuple) :
  parsedTags (t1 ++ t2) = parsedTags t1 ++ parsedTags t2.
Proof. unfold parsedTags. apply omap_app. Qed.

Lemma malformed_app (t1 t2 : list RelationshipTuple) :
  existsb malformed (t1 ++ t2) = existsb malformed t1 || existsb malformed t2.
Proof. apply existsb_app. Qed.

(** Tuples made from identifiers whose tags parse back. *)
Lemma parsedTags_made (idToTag : string -> string) (kind relation : string)
    (items : list string) :
  Forall (fun s => ParseTag (idToTag s) = Ok (mkTag kind s)) items ->
  parsedTags (map (fun s => mkTuple (idToTag s) relation "") items)
  = map (mkTag kind) items
  /\ existsb malformed (map (fun s => mkTuple (idToTag s) relation "") items) = false.
Proof.
  induction 1 as [|s items Hs _ [IHp IHm]]; [done|].
  unfold parsedTags, malformed in *. cbn. rewrite Hs. cbn.
  by rewrite IHp, IHm.
Qed.

Lemma filter_kind_other (P : Tag -> Prop) `{!forall tag, Decision (P tag)}
    (kind : string) (items : list string) :
  (forall s, ~ P (mkTag kind s)) ->
  filter P (map (mkTag kind) items) = [].
Proof.
  intros Hno. induction items as [|s items IH]; [done|].
  cbn [map]. rewrite filter_cons. case_decide as HP; [by apply Hno in HP|done].
Qed.

Lemma filter_kind_same (kind : string) (items : list string) :
  Id <$> filter (fun tag => Kind tag = kind) (map (mkTag kind) items) = items.
Proof.
  induction items as [|s items IH]; [done|].
  cbn [map]. rewrite filter_cons. case_decide; [|done]. cbn [fmap list_fmap Id]. by rewrite IH.
Qed.

Lemma filter_user_tags (b : bool) (items : list string) :
  Id <$> filter (fun tag => Kind tag = UserTagKind
                            /\ IsValidServiceAccountId (Id tag) = b)
           (map (mkTag UserTagKind) items)
  = filter (fun s => IsValidServiceAccountId s = b) items.
Proof.
  induction items as [|s items IH]; [done|].
  cbn [map]. rewrite !filter_cons. cbn [Kind Id].
  repeat case_decide; try (exfalso; intuition congruence);
    cbn [fmap list_fmap Id]; by rewrite IH.
Qed.

(** Writing a plan as tuples and reading the tuples back, when the tags the
    plan's subjects are given parse back to their kind and identifier: the
    groups come back as they were; users and service accounts come back
    split by the service-account pattern, not by the set they were in, so a
    user whose name matches the pattern returns as a service account and a
    service account whose name does not returns as a user.  The plan comes
    back unchanged when no user matches the pattern and every service
    account does.  No error is recorded. *)
Theorem planToTuples_round_trip (targetTag : string) (plan : genericJAASAccessModel) :
  Forall (fun u => ParseTag (NewUserTag_String u) = Ok (mkTag UserTagKind u))
    (Users plan ++ ServiceAccounts plan) ->
  Forall (fun g => ParseTag ("group-" +:+ g) = Ok (mkTag GroupTagKind g))
    (Groups plan) ->
  let back := tuplesToPlan (planToTuples targetTag plan []).1 [] in
  HasError back.2 = false
  /\ Groups back.1 = Groups plan
  /\ Users back.1
     = filter (fun u => IsValidServiceAccountId u = false)
         (Users plan ++ ServiceAccounts plan)
  /\ ServiceAccounts back.1
     = filter (fun u => IsValidServiceAccountId u = true)
         (Users plan ++ ServiceAccounts plan)
  /\ (Forall (fun u => IsValidServiceAccountId u = false) (Users plan) ->
      Forall (fun u => IsValidServiceAccountId u = true) (ServiceAccounts plan) ->
      Users back.1 = Users plan /\ ServiceAccounts back.1 = ServiceAccounts plan).
Proof.
  intros Husers Hgroups. apply Forall_app in Husers as [Hu Hs].
  cbn zeta. rewrite planToTuples_shape. cbn [HasError existsb fst].
  set (relation := StringValue_String (Access plan)).
  destruct (parsedTags_made NewUserTag_String UserTagKind relation _ Hu) as [Hpu Hmu].
  destruct (parsedTags_made (fun g => "group-" +:+ g) GroupTagKind relation _ Hgroups)
    as [Hpg Hmg].
  destruct (parsedTags_made NewUserTag_String UserTagKind relation _ Hs) as [Hps Hms].
  assert (Hkinds : UserTagKind <> GroupTagKind) by discriminate.
  rewrite tuplesToPlan_HasError, !malformed_app, Hmu, Hmg, Hms.
  split; [done|].
  unfold tuplesToPlan, NewSetValue. cbn [fst snd].
  destruct (tuplesToPlan_loop
              (map (fun s => mkTuple (NewUserTag_String s) relation "") (Users plan)
               ++ map (fun s => mkTuple ("group-" +:+ s) relation "") (Groups plan)
               ++ map (fun s => mkTuple (NewUserTag_String s) relation "")
                    (ServiceAccounts plan))
              (mkAcc [] [] [] [])) as (Hru & Hrg & Hrs & _).
  cbn [accUsers accGroups accServiceAccounts app] in Hru, Hrg, Hrs.
  rewrite !parsedTags_app, Hpu, Hpg, Hps in Hru, Hrg, Hrs.
  rewrite !filter_app, !fmap_app in Hru, Hrg, Hrs.
  rewrite !filter_user_tags in Hru, Hrs.
  rewrite filter_kind_same in Hrg.
  rewrite (filter_kind_other _ UserTagKind) in Hrg by (cbn; congruence).
  rewrite (filter_kind_other _ UserTagKind) in Hrg by (cbn; congruence).
  rewrite (filter_kind_other _ GroupTagKind) in Hru
    by (cbn; intros ? [? _]; congruence).
  rewrite (filter_kind_other _ GroupTagKind) in Hrs
    by (cbn; intros ? [? _]; congruence).
  cbn in Hru, Hrg, Hrs. rewrite app_nil_r in Hrg.
  rewrite Hru, Hrg, Hrs, !filter_app. cbn [Users Groups ServiceAccounts].
  split; [done|]. split; [done|]. split; [done|].
  intros Hnot Hare.
  assert (Hkeep : forall (b : bool) (l : list string),
            Forall (fun u => IsValidServiceAccountId u = b) l ->
            filter (fun u => IsValidServiceAccountId u = b) l = l
            /\ filter (fun u => IsValidServiceAccountId u = negb b) l = []).
  { intros b l. induction 1 as [|u l Hub _ [IH1 IH2]]; [done|].
    rewrite !filter_cons. rewrite Hub.
    repeat case_decide; try done; try (by destruct b).
    by rewrite IH1, IH2. }
  destruct (Hkeep false _ Hnot) as [Hu1 Hu2].
  destruct (Hkeep true _ Hare) as [Hs1 Hs2].
  cbn [negb] in Hu2, Hs2.
  by rewrite Hu1, Hu2, Hs1, Hs2, app_nil_r.
Qed.

End round_trip.

(** A plan with a user, a group and a service account, there and back. *)
Lemma planToTuples_round_trip_sample :
  let plan := samples.readerModel ["alice"] ["admins"] ["svc@serviceaccount"] in
  let back := @provider.tuplesToPlan samples.libs
                (@provider.planToTuples samples.libs "model-1234" plan []).1 [] in
  HasError back.2 = false
  /\ provider.Groups back.1 = ["admins"]
  /\ provider.Users back.1 = ["alice"]
  /\ provider.ServiceAccounts back.1 = ["svc@serviceaccount"].
Proof.
  pose proof (@planToTuples_round_trip samples.libs "model-1234"
                (samples.readerModel ["alice"] ["admins"] ["svc@serviceaccount"])
                ltac:(by repeat constructor) ltac:(by repeat constructor)) as H.
  cbn zeta in H. destruct H as (H1 & H2 & H3 & H4 & _).
  repeat split; assumption.
Defined.

(** ** Connections by model name, and the capability check again *)

Section more_client.
Context `{ctl : Controller}.

(** How [ModelUUID] ends, read off the cache it leaves behind. *)
Lemma ModelUUID_cases (name : string) (w : World) :
  let '(r, w1) := ModelUUID name w in
  (exists model, r = Ok (modelcache.UUID model)
                 /\ modelcache.Lookup name (modelCache (sc w1)) = Ok model)
  \/ (exists e e', r = Err e
                   /\ modelcache.Lookup name (modelCache (sc w1)) = Err e').
Proof.
  unfold ModelUUID, mbind, M_bind. rewrite cacheLookup_run.
  destruct (modelcache.Lookup name (modelCache (sc w))) as [model|e0] eqn:Hhit.
  { left. by exists model. }
  rewrite fillModelCache_run. cbn [sc trace].
  destruct (connect (trace w ++ [CacheLookup name]) "") as [e|].
  { right. by exists e, e0. }
  destruct (listModelSummaries ((trace w ++ [CacheLookup name]) ++ [CConnect ""]))
    as [summaries|e].
  2: { right. by exists e, e0. }
  rewrite cacheLookup_run. cbn [sc trace modelCache].
  destruct (modelcache.Lookup name
              (modelcache.FillCache summaries (modelCache (sc w)))) as [model|e] eqn:Hl.
  - left. by exists model.
  - right. by exists e, e.
Qed.

(** [GetConnection] with a model name resolves the name first, as
    [ModelUUID] does, and then: when the cache holds the name afterwards, it
    dials the UUID recorded there, once, and returns what the dial returns;
    when the name is still unknown it returns an error and dials no model
    at all. *)
Theorem GetConnection_by_name (name : string) (w : World) :
  let '(err, w') := GetConnection (Some name) w in
  let w1 := (ModelUUID name w).2 in
  match modelcache.Lookup name (modelCache (sc w1)) with
  | Ok model =>
      err = connect (trace w1) (modelcache.UUID model)
      /\ w' = mkWorld (sc w1) (trace w1 ++ [CConnect (modelcache.UUID model)])
  | Err _ => (exists e, err = Some e) /\ w' = w1
  end.
Proof.
  unfold GetConnection, mbind, M_bind.
  pose proof (ModelUUID_cases name w) as Hcases.
  destruct (ModelUUID name w) as [r w1]. cbn [snd].
  destruct Hcases as [(model & -> & ->)|(e & e' & -> & ->)].
  - done.
  - split; [by exists e|done].
Qed.

(** A name that [ModelUUID] resolved stays resolved: asking again, for the
    UUID or for the type, is answered from the cache with one lookup and
    without a request to the controller. *)
Theorem resolved_name_is_cached (name uuid : string) (w : World) :
  (ModelUUID name w).1 = Ok uuid ->
  let w1 := (ModelUUID name w).2 in
  let w2 := mkWorld (sc w1) (trace w1 ++ [CacheLookup name]) in
  ModelUUID name w1 = (Ok uuid, w2)
  /\ exists type, ModelType name w1 = (Ok type, w2).
Proof.
  intros Hok. cbn zeta.
  pose proof (ModelUUID_cases name w) as Hcases.
  destruct (ModelUUID name w) as [r w1]. cbn [fst snd] in *. subst r.
  destruct Hcases as [(model & Huuid & Hl)|(e & e' & Herr & _)]; [|done].
  injection Huuid as ->.
  unfold ModelUUID, ModelType, mbind, M_bind. rewrite !cacheLookup_run, Hl.
  split; [done|]. by exists (modelcache.ModelType model).
Qed.

(** The capability check answers twice the same: whatever default the
    second call passes, it returns what the first call returned and leaves
    the client and the history untouched. *)
Theorem IsJAAS_twice (d1 d2 : bool) (w : World) :
  let '(b1, w1) := IsJAAS d1 w in
  IsJAAS d2 w1 = (b1, w1).
Proof.
  pose proof (IsJAAS_sets_guard d1 w) as Hguard.
  destruct (IsJAAS d1 w) as [b1 w1]. destruct Hguard as [Hdone Hval].
  rewrite IsJAAS_memoized by done. by rewrite Hval.
Qed.

Lemma IsJAAS_probe_fallback (defaultVal : bool) (w : World) :
  checkJAASOnce (sc w) = false ->
  (IsJAAS defaultVal w).1 =
  match connect (trace w) "" with
  | Some _ => defaultVal
  | None =>
      match listControllers (trace w ++ [CConnect ""]) with
      | None => true
      | Some _ => defaultVal
      end
  end.
Proof.
  intros Hfresh. rewrite IsJAAS_first_run by done. cbn zeta.
  destruct (connect (trace w) ""); [done|].
  by destruct (listControllers (trace w ++ [CConnect ""])).
Qed.

(** When the check cannot be completed on a new client (no connection, or
    the probe call fails), the client reports JAAS exactly when it was
    created with both a client ID and a client secret. *)
Theorem Client_IsJAAS_falls_back_on_credentials (config : ControllerConfiguration) :
  (connect [] "" <> None \/ listControllers [CConnect ""] <> None) ->
  (Client_IsJAAS config (mkWorld (NewClient config) [])).1 = true
  <-> ClientID config <> "" /\ ClientSecret config <> "".
Proof.
  intros Hfail. unfold Client_IsJAAS.
  rewrite IsJAAS_probe_fallback. 2: done.
  rewrite <- defaultJAASCheck_spec. cbn [trace app].
  destruct (connect [] "") as [e|]; [done|].
  destruct (listControllers [CConnect ""]) as [e|]; [done|].
  by destruct Hfail.
Qed.

Lemma AddWarning_nil (s d : string) :
  AddWarning [] s d = [mkDiagnostic SeverityWarning s d].
Proof.
  unfold AddWarning, Append. cbn [foldl].
  by rewrite bool_decide_eq_false_2 by apply not_elem_of_nil.
Qed.

(** [AvoidJAASValidator.Validate] never reports an error: it returns no
    diagnostic, or the one warning, and it warns exactly when the
    validator has a client and that client reports JAAS; without a client it
    contacts nobody. *)
Theorem AvoidJAASValidator_warns_only (Client : option ControllerConfiguration)
    (w : World) :
  let '(diags, w') := provider.AvoidJAASValidator_Validate Client w in
  HasError diags = false
  /\ length diags <= 1
  /\ (diags <> [] <->
      exists config, Client = Some config /\ (Client_IsJAAS config w).1 = true)
  /\ (Client = None -> w' = w).
Proof.
  unfold provider.AvoidJAASValidator_Validate, mbind, M_bind, mret, M_ret.
  rewrite AddWarning_nil.
  destruct Client as [config|].
  - destruct (Client_IsJAAS config w) as [[|] w1] eqn:Hj; cbn [fst].
    + split; [done|]. split; [cbn; lia|]. split; [|done].
      split; [intros _; exists config; by rewrite Hj|done].
    + split; [done|]. split; [cbn; lia|]. split; [|done].
      split; [done|]. intros (c & Hc & Hb). simplify_eq. by rewrite Hj in Hb.
  - split; [done|]. split; [cbn; lia|]. split; [|done].
    split; [done|intros (c & Hc & _); done].
Qed.

End more_client.

(** A model the controller knows: resolved once, then answered from the cache. *)
Lemma resolved_name_is_cached_sample :
  let ctl := samples.modelsController [modelcache.mkSummary "dev" "admin" "1234" "iaas"] in
  let w1 := (@ModelUUID ctl "dev" samples.freshWorld).2 in
  let w2 := mkWorld (sc w1) (trace w1 ++ [CacheLookup "dev"]) in
  @ModelUUID ctl "dev" w1 = (Ok "1234", w2)
  /\ exists type, ModelType "dev" w1 = (Ok type, w2).
Proof.
  exact (@resolved_name_is_cached
           (samples.modelsController [modelcache.mkSummary "dev" "admin" "1234" "iaas"])
           "dev" "1234" samples.freshWorld eq_refl).
Defined.

(** Before the name is resolved, [ModelType] fails where [ModelUUID]
    succeeds: it does not refill the cache. *)
Example ModelType_cold_cache :
  let ctl := samples.modelsController [modelcache.mkSummary "dev" "admin" "1234" "iaas"] in
  (ModelType "dev" samples.freshWorld).1 = Err "model not found: dev"
  /\ (@ModelUUID ctl "dev" samples.freshWorld).1 = Ok "1234".
Proof. by split. Qed.

(** A client with credentials that cannot reach its controller. *)
Lemma Client_IsJAAS_unreachable_sample :
  (@Client_IsJAAS samples.unreachableController samples.jaasConfig
     (mkWorld (NewClient samples.jaasConfig) [])).1 = true
  <-> ClientID samples.jaasConfig <> "" /\ ClientSecret samples.jaasConfig <> "".
Proof.
  apply (@Client_IsJAAS_falls_back_on_credentials samples.unreachableController
           samples.jaasConfig).
  left. discriminate.
Defined.

(** ** Import identifiers *)

Section import_state.
Import accessModel.

Lemma Split_nonempty (s : string) (sep : ascii) : Split s sep <> [].
Proof.
  destruct s as [|c s]; [done|]. cbn.
  destruct (Ascii.eqb c sep); [done|]. by destruct (Split s sep).
Qed.

(** [Split] gives one piece more than there are separators. *)
Lemma Split_length (s : string) (sep : ascii) :
  length (Split s sep) = S (countByte sep s).
Proof.
  induction s as [|c s IH]; [done|]. cbn.
  destruct (Ascii.eqb c sep); cbn; [by rewrite IH|].
  pose proof (Split_nonempty s sep).
  destruct (Split s sep); [done|]. by rewrite <- IH.
Qed.

Lemma Join_cons (p q : string) (qs : list string) (sep : ascii) :
  Join (p :: q :: qs) sep = p +:+ String sep (Join (q :: qs) sep).
Proof. reflexivity. Qed.

(** The pieces hold no separator, and joined by it they give the string back. *)
Lemma Split_pieces (s : string) (sep : ascii) :
  Forall (fun piece => countByte sep piece = 0) (Split s sep)
  /\ Join (Split s sep) sep = s.
Proof.
  induction s as [|c s [IHf IHj]]; [by repeat constructor|]. cbn.
  pose proof (Split_nonempty s sep) as Hne.
  destruct (Ascii.eqb c sep) eqn:Hc.
  - apply Ascii.eqb_eq in Hc as ->. split; [by constructor|].
    destruct (Split s sep) as [|p ps]; [done|]. by rewrite Join_cons, IHj.
  - destruct (Split s sep) as [|p ps]; [done|].
    apply Forall_cons in IHf as [Hp Hps]. split.
    + constructor; [|done]. cbn [countByte]. by rewrite Hc, Hp.
    + destruct ps as [|q qs].
      * cbn [Join] in *. by rewrite IHj.
      * rewrite Join_cons in *. by rewrite <- IHj.
Qed.

(** [ImportState] accepts an identifier exactly when it holds two colons,
    that is when it reads [m:a:u] with no colon inside [m], [a] and [u]
    (any of which may be empty); it then copies the identifier to the [id]
    attribute and records nothing.  Any other identifier is refused with an
    error, and the [id] attribute is left as it was. *)
Theorem ImportState_two_colons (Sprintf_q : string -> string) (reqID : string)
    (resp : ImportResponse) :
  let r := ImportState Sprintf_q reqID resp in
  (countByte ":" reqID = 2
   /\ r = mkImport (ImportDiagnostics resp) (Some reqID)
   /\ exists m a u,
        reqID = m +:+ ":" +:+ a +:+ ":" +:+ u
        /\ countByte ":" m = 0 /\ countByte ":" a = 0 /\ countByte ":" u = 0)
  \/ (countByte ":" reqID <> 2
      /\ HasError (ImportDiagnostics r) = true
      /\ ImportID r = ImportID resp).
Proof.
  cbn zeta. unfold ImportState.
  pose proof (Split_length reqID ":") as Hlen.
  pose proof (Split_pieces reqID ":") as [Hfree Hjoin].
  destruct (Nat.eqb_spec (length (Split reqID ":")) 3) as [H3|H3]; cbn [negb].
  - left. split; [lia|]. split; [done|].
    destruct (Split reqID ":") as [|m [|a [|u [|]]]]; try done.
    apply Forall_cons in Hfree as [Hm Hfree].
    apply Forall_cons in Hfree as [Ha Hfree].
    apply Forall_cons in Hfree as [Hu _].
    exists m, a, u. cbn in Hjoin. by rewrite <- Hjoin.
  - right. split; [lia|]. split; [apply HasError_AddError|done].
Qed.

End import_state.

(** Three empty parts are an accepted identifier; a lone model name is not. *)
Example ImportState_edges :
  accessModel.ImportID
    (accessModel.ImportState (fun s => s) "::" (accessModel.mkImport [] None))
  = Some "::"
  /\ accessModel.ImportID
       (accessModel.ImportState (fun s => s) "mymodel" (accessModel.mkImport [] None))
     = None
  /\ Split "mymodel:admin:bob,carol" ":" = ["mymodel"; "admin"; "bob,carol"].
Proof. by repeat split. Qed.

(** ** The UUID pattern *)

Section uuid_pattern.
Import uuid.

Lemma run_seq (a b : re) (s r : string) :
  run (Seq a b) s = Some r <-> exists m, run a s = Some m /\ run b m = Some r.
Proof.
  cbn [run]. destruct (run a s) as [m|].
  - split; [intros H; by exists m|intros (m' & Hm & H); by simplify_eq].
  - split; [done|intros (m' & Hm & _); done].
Qed.

Lemma run_rep_S (n : nat) (x : re) (s : string) :
  run (Rep (S n) x) s
  = match run x s with Some s' => run (Rep n x) s' | None => None end.
Proof. reflexivity. Qed.

(** [n] bytes of a class: the prefix of length [n] is in the class. *)
Lemma run_rep_class (p : ascii -> bool) (n : nat) (s r : string) :
  run (Rep n (Class p)) s = Some r
  <-> exists pre, s = pre +:+ r /\ String.length pre = n /\ allBytes p pre = true.
Proof.
  revert s. induction n as [|n IH]; intros s.
  - cbn. split.
    + intros H. simplify_eq. by exists EmptyString.
    + intros (pre & -> & Hlen & _). by destruct pre.
  - rewrite run_rep_S. destruct s as [|c s].
    + change (run (Class p) EmptyString) with (@None string).
      split; [done|]. intros (pre & Hs & Hlen & _). by destruct pre.
    + change (run (Class p) (String c s)) with (if p c then Some s else None).
      destruct (p c) eqn:Hc.
      * rewrite IH. split.
        -- intros (pre & -> & Hlen & Hall). exists (String c pre).
           cbn. rewrite Hc, Hlen. by rewrite Hall.
        -- intros (pre & Hs & Hlen & Hall). destruct pre as [|c' pre]; [done|].
           change (String c s = String c' (pre +:+ r)) in Hs.
           cbn in Hlen, Hall. simplify_eq.
           apply andb_true_iff in Hall as [_ Hall]. by exists pre.
      * split; [done|]. intros (pre & Hs & Hlen & Hall).
        destruct pre as [|c' pre]; [done|].
        change (String c s = String c' (pre +:+ r)) in Hs.
        cbn in Hall. simplify_eq. by rewrite Hc in Hall.
Qed.

(** A dash and then [n] bytes of a class. *)
Lemma run_dash_rep (p : ascii -> bool) (n : nat) (s r : string) :
  run (Seq (Lit "-") (Rep n (Class p))) s = Some r
  <-> exists pre, s = "-" +:+ pre +:+ r
                  /\ String.length pre = n /\ allBytes p pre = true.
Proof.
  rewrite run_seq. split.
  - intros (m & Hdash & Hrep). apply run_rep_class in Hrep as (pre & -> & Hlen & Hall).
    exists pre. split; [|done].
    destruct s as [|c s]; [done|].
    change (run (Lit "-") (String c s))
      with (if Ascii.eqb c "-" then Some s else None) in Hdash.
    destruct (Ascii.eqb_spec c "-") as [->|]; [|done]. by simplify_eq.
  - intros (pre & -> & Hlen & Hall). exists (pre +:+ r). split; [done|].
    apply run_rep_class. by exists pre.
Qed.

Lemma append_empty (a : string) : a +:+ EmptyString = a.
Proof.
  induction a as [|c a IH]; [done|].
  change (String c (a +:+ EmptyString) = String c a). by rewrite IH.
Qed.

Lemma length_append (a b : string) :
  String.length (a +:+ b) = String.length a + String.length b.
Proof.
  induction a as [|c a IH]; [done|].
  change (S (String.length (a +:+ b)) = S (String.length a + String.length b)).
  by rewrite IH.
Qed.

(** The strings [uuidMatcher] accepts are exactly the five groups of 8, 4,
    4, 4 and 12 word bytes joined by dashes, so 36 bytes in all.  The groups
    are not required to be hexadecimal: any ASCII letter, digit or
    underscore is a word byte. *)
Theorem uuidMatcher_shape (s : string) :
  (MatchString uuidMatcher s = true
   <-> exists a b c d e,
         s = a +:+ "-" +:+ b +:+ "-" +:+ c +:+ "-" +:+ d +:+ "-" +:+ e
         /\ String.length a = 8 /\ String.length b = 4 /\ String.length c = 4
         /\ String.length d = 4 /\ String.length e = 12
         /\ allBytes word a = true /\ allBytes word b = true
         /\ allBytes word c = true /\ allBytes word d = true
         /\ allBytes word e = true)
  /\ (MatchString uuidMatcher s = true -> String.length s = 36).
Proof.
  assert (Hshape : MatchString uuidMatcher s = true
   <-> exists a b c d e,
         s = a +:+ "-" +:+ b +:+ "-" +:+ c +:+ "-" +:+ d +:+ "-" +:+ e
         /\ String.length a = 8 /\ String.length b = 4 /\ String.length c = 4
         /\ String.length d = 4 /\ String.length e = 12
         /\ allBytes word a = true /\ allBytes word b = true
         /\ allBytes word c = true /\ allBytes word d = true
         /\ allBytes word e = true).
  { unfold MatchString, uuidMatcher. split.
    - intros Hm.
      destruct (run _ s) as [[|]|] eqn:Hrun; try done. clear Hm.
      apply run_seq in Hrun as (s1 & Ha & Hrun).
      apply run_seq in Hrun as (s2 & Hmid & He).
      rewrite run_rep_S in Hmid.
      destruct (run (Seq (Lit "-") (Rep 4 (Class word))) s1) as [t1|] eqn:Hb; [|done].
      rewrite run_rep_S in Hmid.
      destruct (run (Seq (Lit "-") (Rep 4 (Class word))) t1) as [t2|] eqn:Hc; [|done].
      rewrite run_rep_S in Hmid.
      destruct (run (Seq (Lit "-") (Rep 4 (Class word))) t2) as [t3|] eqn:Hd; [|done].
      change (Some t3 = Some s2) in Hmid. simplify_eq.
      apply run_rep_class in Ha as (a & -> & Hla & Hwa).
      apply run_dash_rep in Hb as (b & -> & Hlb & Hwb).
      apply run_dash_rep in Hc as (c & -> & Hlc & Hwc).
      apply run_dash_rep in Hd as (d & -> & Hld & Hwd).
      apply run_dash_rep in He as (e & -> & Hle & Hwe).
      exists a, b, c, d, e. rewrite append_empty in *.
      by repeat split.
    - intros (a & b & c & d & e & -> & Hla & Hlb & Hlc & Hld & Hle
              & Hwa & Hwb & Hwc & Hwd & Hwe).
      assert (Hrun : run (Seq (Rep 8 (Class word))
                (Seq (Rep 3 (Seq (Lit "-") (Rep 4 (Class word))))
                   (Seq (Lit "-") (Rep 12 (Class word)))))
                (a +:+ "-" +:+ b +:+ "-" +:+ c +:+ "-" +:+ d +:+ "-" +:+ e)
              = Some EmptyString).
      { apply run_seq. eexists. split; [apply run_rep_class; by exists a|].
        apply run_seq. exists ("-" +:+ e). split.
        - assert (Hb : run (Seq (Lit "-") (Rep 4 (Class word)))
                         ("-" +:+ b +:+ "-" +:+ c +:+ "-" +:+ d +:+ "-" +:+ e)
                       = Some ("-" +:+ c +:+ "-" +:+ d +:+ "-" +:+ e))
            by (apply run_dash_rep; by exists b).
          assert (Hc : run (Seq (Lit "-") (Rep 4 (Class word)))
                         ("-" +:+ c +:+ "-" +:+ d +:+ "-" +:+ e)
                       = Some ("-" +:+ d +:+ "-" +:+ e))
            by (apply run_dash_rep; by exists c).
          assert (Hd : run (Seq (Lit "-") (Rep 4 (Class word)))
                         ("-" +:+ d +:+ "-" +:+ e)
                       = Some ("-" +:+ e))
            by (apply run_dash_rep; by exists d).
          by rewrite run_rep_S, Hb, run_rep_S, Hc, run_rep_S, Hd.
        - apply run_dash_rep. exists e. by rewrite append_empty. }
      by rewrite Hrun. }
  split; [exact Hshape|].
  intros Hm. apply Hshape in Hm
    as (a & b & c & d & e & -> & Hla & Hlb & Hlc & Hld & Hle & _).
  rewrite !length_append. cbn. lia.
Qed.

End uuid_pattern.

(** A UUID is accepted; so are 36 bytes of letters that are no hexadecimal
    digits, or of underscores; a UUID without its dashes is not. *)
Example uuidMatcher_examples :
  uuid.MatchString uuid.uuidMatcher "f47ac10b-58cc-4372-a567-0e02b2c3d479" = true
  /\ uuid.MatchString uuid.uuidMatcher "zzzzzzzz-zzzz-zzzz-zzzz-zzzzzzzzzzzz" = true
  /\ uuid.MatchString uuid.uuidMatcher "________-____-____-____-____________" = true
  /\ uuid.MatchString uuid.uuidMatcher "f47ac10b58cc4372a5670e02b2c3d479" = false
  /\ uuid.MatchString uuid.uuidMatcher "f47ac10b-58cc-4372-a567-0e02b2c3d479 " = false
  /\ uuid.MatchString uuid.uuidMatcher "" = false.
Proof. by vm_compute. Qed.

(** ** The other access resource *)

Section access_model_resource.
Import accessModel.
Context `{libs : provider.Libraries}.

#[local] Arguments Append : simpl never.

Lemma foldl_snoc_map {A B} (f : A -> B) (items : list A) (acc : list B) :
  foldl (fun tuples item => tuples ++ [f item]) acc items = acc ++ map f items.
Proof.
  revert acc. induction items as [|item items IH]; intros acc; cbn.
  - by rewrite app_nil_r.
  - rewrite IH. by rewrite <- app_assoc.
Qed.

(** The batch of [getTuples]: one tuple per user, then per group, then per
    service account; users carry the prefix [user-], groups and service
    accounts alike the prefix [group-]; the relation is the rendering of the
    access; the target object is empty, and neither the resource's tag nor
    the plan's UUID appears in any tuple.  The flag is false, with an empty
    batch, exactly when the diagnostics already held an error. *)
Theorem getTuples_shape (tag : string) (plan : genericJAASAccessResourceModel)
    (diag : Diagnostics) :
  getTuples tag plan diag =
  if HasError diag then ([], false, diag)
  else
    let relation := provider.StringValue_String (Access plan) in
    (map (fun user => mkTuple ("user-" +:+ user) relation "") (Users plan)
     ++ map (fun group => mkTuple ("group-" +:+ group) relation "") (Groups plan)
     ++ map (fun serviceAccount => mkTuple ("group-" +:+ serviceAccount) relation "")
          (ServiceAccounts plan),
     true, diag).
Proof.
  unfold getTuples, ElementsAs. rewrite !Append_nil.
  destruct (HasError diag); [done|].
  cbn [Relation TargetObject]. rewrite !foldl_snoc_map. cbn [app].
  by rewrite <- app_assoc.
Qed.


End access_model_resource.
